(** * Rocket telemetry dashboard (main.py): a shallow embedding

    The script reads a CSV table, normalises and parses its timestamps and
    builds one animated 3D figure, four animated 2D figures and four static
    figures.  The embedding follows the script top to bottom: the widgets
    it shows are an output log, the exceptions it can raise and [st.stop()]
    are the ways a run can end early. *)

From Stdlib Require Import List String Ascii Arith Bool Lia PeanoNat ZArith.
From Stdlib Require Import DecimalString DecimalNat.
Import ListNotations.
Local Open Scope string_scope.
Local Open Scope list_scope.
Local Open Scope nat_scope.

(** ** Python values used by the script *)

(** [str(k)] and [f"{k}"] for a non-negative int. *)
Definition str (k : nat) : string := NilEmpty.string_of_uint (Nat.to_uint k).

(** [range(start, stop, step)] for [step > 0], as CPython computes it:
    the length is [0] when [start >= stop] and
    [(stop - start - 1) // step + 1] otherwise, item [i] is
    [start + i * step]. *)
Definition range_length (start stop step : nat) : nat :=
  if start <? stop then (stop - start - 1) / step + 1 else 0.

Definition range (start stop step : nat) : list nat :=
  map (fun i => start + i * step) (seq 0 (range_length start stop step)).

(** ** Exceptions and the script monad *)

Inductive Exn : Type :=
| KeyError (key : nat)          (* Series[label] with a label not in the index *)
| IndexError (pos : nat)        (* Series.iloc[pos] out of bounds *)
| ValueError (msg : string)     (* NaT.strftime *)
| AttributeError                (* Series.str on a column without text *)
| TypeError.                    (* a numeric column + a str *)

Inductive result (A : Type) : Type :=
| Ok (a : A)
| Raise (e : Exn).
Arguments Ok {A} a.
Arguments Raise {A} e.

Definition rbind {A B} (r : result A) (f : A -> result B) : result B :=
  match r with
  | Ok a => f a
  | Raise e => Raise e
  end.

Declare Scope result_scope.
Delimit Scope result_scope with result.
Notation "x <- r ;; k" := (rbind r (fun x => k))
  (at level 61, r at next level, right associativity) : result_scope.

(** The list comprehension [[f(k) for k in ks]] when [f] can raise. *)
Fixpoint comprehension {A B} (f : A -> result B) (ks : list A) : result (list B) :=
  match ks with
  | [] => Ok []
  | k :: ks' =>
      (b <- f k ;; bs <- comprehension f ks' ;; Ok (b :: bs))%result
  end.

(** The regular expression of line 62 and [Series.str.replace]. *)
Module TimeFormat.

(** A Python [str] is held as its UTF-8 bytes; the pattern is a [str]
    pattern, so [\d] is any character of the Unicode category Nd.  Outside
    ASCII the decimal digits come in runs of ten code points; these are the
    first code points of the runs (Unicode 15). *)
Definition Nd_runs : list N :=
  [
    1632; 1776; 1984; 2406; 2534; 2662; 2790; 2918;
    3046; 3174; 3302; 3430; 3558; 3664; 3792; 3872;
    4160; 4240; 6112; 6160; 6470; 6608; 6784; 6800;
    6992; 7088; 7232; 7248; 42528; 43216; 43264; 43472;
    43504; 43600; 44016; 65296; 66720; 68912; 69734; 69872;
    69942; 70096; 70384; 70736; 70864; 71248; 71360; 71472;
    71904; 72016; 72784; 73040; 73120; 73552; 92768; 92864;
    93008; 120782; 120792; 120802; 120812; 120822; 123200; 123632;
    124144; 125264; 130032
  ]%N.

Definition is_decimal (cp : N) : bool :=
  if (cp <? 128)%N
  then (48 <=? cp)%N && (cp <=? 57)%N
  else existsb (fun z => (z <=? cp)%N && (cp <? z + 10)%N) Nd_runs.

(** The payload of a UTF-8 continuation byte, [10xxxxxx]. *)
Definition continuation (s : string) : option (N * string) :=
  match s with
  | EmptyString => None
  | String b r =>
      let n := N_of_ascii b in
      if (128 <=? n)%N && (n <? 192)%N then Some (n - 128, r)%N else None
  end.

(** The first character of a text and the text after it. *)
Definition next_char (s : string) : option (N * string) :=
  match s with
  | EmptyString => None
  | String b0 r0 =>
      let n0 := N_of_ascii b0 in
      if (n0 <? 128)%N then Some (n0, r0)
      else if (194 <=? n0)%N && (n0 <? 224)%N then
        match continuation r0 with
        | Some (c1, r1) => Some ((n0 - 192) * 64 + c1, r1)%N
        | None => None
        end
      else if (224 <=? n0)%N && (n0 <? 240)%N then
        match continuation r0 with
        | Some (c1, r1) =>
            match continuation r1 with
            | Some (c2, r2) => Some (((n0 - 224) * 64 + c1) * 64 + c2, r2)%N
            | None => None
            end
        | None => None
        end
      else if (240 <=? n0)%N && (n0 <? 245)%N then
        match continuation r0 with
        | Some (c1, r1) =>
            match continuation r1 with
            | Some (c2, r2) =>
                match continuation r2 with
                | Some (c3, r3) =>
                    Some ((((n0 - 240) * 64 + c1) * 64 + c2) * 64 + c3, r3)%N
                | None => None
                end
            | None => None
            end
        | None => None
        end
      else None
  end.

(** [\d] at the front of a text: what is left after one decimal digit. *)
Definition digit (s : string) : option string :=
  match next_char s with
  | Some (cp, r) => if is_decimal cp then Some r else None
  | None => None
  end.

(** [$] without [re.MULTILINE]: the end of the text, or just before a
    newline that ends the text. *)
Definition at_end (s : string) : bool :=
  match s with
  | EmptyString => true
  | String nl EmptyString => Ascii.eqb nl "010"%char
  | _ => false
  end.

(** The lookahead [(?=\d{3}$)] tried on the text after the colon. *)
Definition lookahead (rest : string) : bool :=
  match digit rest with
  | Some r1 =>
      match digit r1 with
      | Some r2 =>
          match digit r2 with
          | Some r3 => at_end r3
          | None => false
          end
      | None => false
      end
  | None => false
  end.

(** [re.sub(r':(?=\d{3}$)', '.', s)]: scan left to right, replace every
    match, copy every other character.  The byte of the colon occurs in
    UTF-8 as the colon only, so the scan goes byte by byte. *)
Fixpoint sub_colon (s : string) : string :=
  match s with
  | EmptyString => EmptyString
  | String c rest =>
      if Ascii.eqb c ":"%char && lookahead rest
      then String "."%char (sub_colon rest)
      else String c (sub_colon rest)
  end.

(** A text without the two characters the substitution reads or writes. *)
Definition punct (b : ascii) : bool :=
  Ascii.eqb b ":"%char || Ascii.eqb b "."%char.

Fixpoint plain (s : string) : bool :=
  match s with
  | EmptyString => true
  | String b r => negb (punct b) && plain r
  end.

End TimeFormat.

(** ** The table, the figures and the widgets *)

(** [DATA_SOURCES]: the keys are the options of the select box. *)
Inductive Dataset : Type := IdealLaunch | SensorData.

Definition dataset_key (d : Dataset) : string :=
  match d with
  | IdealLaunch => "Ideal Launch"
  | SensorData => "Sensor Data"
  end.

Definition DATA_SOURCES (d : Dataset) : string :=
  match d with
  | IdealLaunch => "database/ideal_rocket_launch.csv"
  | SensorData => "database/sensor_data_mock.csv"
  end.

(** The numeric columns of the schema, by name. *)
Inductive Column : Type :=
| col_lon | col_lat | col_gps_alt | col_alt
| col_acc_x | col_acc_y | col_acc_z
| col_eu_x | col_eu_y | col_eu_z | col_valve_state.

Definition col_name (c : Column) : string :=
  match c with
  | col_lon => "lon" | col_lat => "lat" | col_gps_alt => "gps_alt"
  | col_alt => "alt"
  | col_acc_x => "acc_x" | col_acc_y => "acc_y" | col_acc_z => "acc_z"
  | col_eu_x => "eu_x" | col_eu_y => "eu_y" | col_eu_z => "eu_z"
  | col_valve_state => "valve_state"
  end.

Section Dashboard.

Set Implicit Arguments.

(** What pandas, plotly and streamlit provide.  [Num] is the type of a
    numeric cell, [Timestamp] of a parsed datetime, [Upload] of the file
    object the upload control returns. *)
Variable Num : Type.
Variable Timestamp : Type.
Variable Upload : Type.

(** One row of the CSV as [pd.read_csv] returns it: [date] and [time] are
    text cells, [None] being a missing cell (NaN). *)
Record RawRow : Type := mkRawRow {
  date : option string;
  time : option string;
  lon : Num; lat : Num; gps_alt : Num; alt : Num;
  acc_x : Num; acc_y : Num; acc_z : Num;
  eu_x : Num; eu_y : Num; eu_z : Num;
  valve_state : Num
}.

(** A row once line 65 has added the [datetime] column; [None] is NaT. *)
Record Row : Type := mkRow {
  sample : RawRow;
  datetime : option Timestamp
}.

Definition cell (c : Column) (r : RawRow) : Num :=
  match c with
  | col_lon => lon r | col_lat => lat r | col_gps_alt => gps_alt r
  | col_alt => alt r
  | col_acc_x => acc_x r | col_acc_y => acc_y r | col_acc_z => acc_z r
  | col_eu_x => eu_x r | col_eu_y => eu_y r | col_eu_z => eu_z r
  | col_valve_state => valve_state r
  end.

(** [df[c]] and [df['datetime']] of the processed table. *)
Definition column (c : Column) (df : list Row) : list Num :=
  map (fun r => cell c (sample r)) df.

Definition datetime_column (df : list Row) : list (option Timestamp) :=
  map datetime df.

(** The argument of [pd.read_csv]: a path or an uploaded file object. *)
Inductive Source : Type :=
| Path (p : string)
| Buffer (f : Upload).

Variable read_csv : Source -> list RawRow.

(** [pd.to_datetime(series, errors='coerce')] on a column of texts: one
    call for the whole column, which returns a column of timestamps with
    [None] (NaT) where it rejects a text.  What it returns for one row can
    depend on the other rows (pandas infers one format for the column). *)
Variable to_datetime : list (option string) -> list (option Timestamp).

(** [t.strftime("%H:%M:%S")] on a [Timestamp]. *)
Variable strftime_HMS : Timestamp -> string.

(** [Series.min()], [Series.max()] and [x - 10] on numeric cells. *)
Variable series_min : list Num -> Num.
Variable series_max : list Num -> Num.
Variable minus_10 : Num -> Num.

Inductive Trace : Type :=
| Surface (z x y : list (list Num)) (name : string)
| Scatter3d (x y z : list Num) (mode : string) (name : string)
| Scatter (x : list (option Timestamp)) (y : list Num)
          (mode : string) (name : string).

Record Frame : Type := mkFrame {
  frame_data : list Trace;
  frame_name : string
}.

(** A slider step: the frame it animates to and its label. *)
Record SliderStep : Type := mkStep {
  step_frame : string;
  step_label : string
}.

Record Figure : Type := mkFigure {
  fig_data : list Trace;
  fig_title : string;
  fig_steps : list SliderStep;
  fig_frames : list Frame
}.

Inductive Widget : Type :=
| Title (s : string)
| SidebarHeader (s : string)
| SidebarSelectbox (label : string) (options : list string)
| SidebarFileUploader (label : string)
| SidebarWrite (s : string)
| Markdown (s : string)
| Subheader (s : string)
| Warning (s : string)
| Dataframe (rows : list Row)
| PlotlyChart (fig : Figure).

(** *** How a run of the script goes

    A run shows widgets in order and ends by reaching the last line, by
    [st.stop()] or by an uncaught exception. *)
Inductive Ending (A : Type) : Type :=
| Returns (a : A)
| Stopped
| Crashed (e : Exn).
Arguments Returns {A} a.
Arguments Stopped {A}.
Arguments Crashed {A} e.

Definition Script (A : Type) : Type := (list Widget * Ending A)%type.

Definition sbind {A B} (c : Script A) (f : A -> Script B) : Script B :=
  match c with
  | (shown, Returns a) => let (shown', e) := f a in (shown ++ shown', e)
  | (shown, Stopped) => (shown, Stopped)
  | (shown, Crashed e) => (shown, Crashed e)
  end.

Definition sret {A} (a : A) : Script A := ([], Returns a).
Definition show (w : Widget) : Script unit := ([w], Returns tt).
Definition st_stop {A} : Script A := ([], Stopped).
Definition eval {A} (r : result A) : Script A :=
  match r with
  | Ok a => ([], Returns a)
  | Raise e => ([], Crashed e)
  end.

Declare Scope script_scope.
Delimit Scope script_scope with script.
Notation "x <- c ;; k" := (sbind c (fun x => k))
  (at level 61, c at next level, right associativity) : script_scope.
Notation "c ;; k" := (sbind c (fun _ => k))
  (at level 61, right associativity) : script_scope.

(** *** Lines 38-44: which table is loaded *)

(** [load_data] is [pd.read_csv] behind [st.cache_data]. *)
Definition load_data (db_path : string) : list RawRow := read_csv (Path db_path).

Definition load (uploaded_file : option Upload) (selected_dataset : Dataset)
  : list RawRow * string :=
  match uploaded_file with
  | Some f => (read_csv (Buffer f), "Uploaded Data")
  | None =>
      let DB_PATH := DATA_SOURCES selected_dataset in
      (load_data DB_PATH, dataset_key selected_dataset)
  end.

(** *** Lines 62-70: the timestamps *)

(** [Series.str.replace(...)] on the cells of the [time] column, assigned
    back to the column: every text is substituted, a missing cell stays
    missing. *)
Definition set_time (r : RawRow) (t : option string) : RawRow :=
  mkRawRow (date r) t (lon r) (lat r) (gps_alt r) (alt r)
           (acc_x r) (acc_y r) (acc_z r) (eu_x r) (eu_y r) (eu_z r)
           (valve_state r).

Definition assign_time (df : list RawRow) : list RawRow :=
  map (fun r => set_time r (option_map TimeFormat.sub_colon (time r))) df.

(** A column read from the CSV holds text when one of its cells does; a
    column whose cells are all missing is read as a numeric column. *)
Definition has_text (cells : list (option string)) : bool :=
  existsb (fun c => match c with Some _ => true | None => false end) cells.

(** [df['time'].str]: pandas grants the accessor to a column of text only. *)
Definition str_accessor (cells : list (option string)) : result unit :=
  if has_text cells then Ok tt else Raise AttributeError.

(** Line 62: [df['time'] = df['time'].str.replace(...)]. *)
Definition fix_time (df : list RawRow) : result (list RawRow) :=
  (_ <- str_accessor (map time df) ;; Ok (assign_time df))%result.

(** [df['date'] + ' ' + df['time']] on one row: missing if either cell is. *)
Definition date_time_text (r : RawRow) : option string :=
  match date r, time r with
  | Some d, Some t => Some (d ++ " " ++ t)%string
  | _, _ => None
  end.

(** [df['date'] + ' ' + df['time']] on the table: adding [' '] to a [date]
    column that holds no text (a numeric column) raises. *)
Definition date_time_column (df : list RawRow) : result (list (option string)) :=
  if has_text (map date df) then Ok (map date_time_text df) else Raise TypeError.

(** [df['datetime'] = parsed]: the parsed series is aligned with the rows
    by position.  A row without text is NaT, whatever the series holds (a
    missing value never parses), and so is a row the series has no value
    for. *)
Fixpoint assign_parsed (df : list RawRow) (parsed : list (option Timestamp))
  : list Row :=
  match df with
  | [] => []
  | r :: df' =>
      mkRow r (match date_time_text r with
               | Some _ => hd None parsed
               | None => None
               end)
      :: assign_parsed df' (tl parsed)
  end.

(** The table with its [datetime] column: the rows of [df] and the column
    parse of their texts. *)
Definition assign_datetime (df : list RawRow) : list Row :=
  assign_parsed df (to_datetime (map date_time_text df)).

(** Line 65: [df['datetime'] = pd.to_datetime(df['date'] + ' ' + df['time'],
    errors='coerce')]. *)
Definition parse_datetime (df : list RawRow) : result (list Row) :=
  (texts <- date_time_column df ;; Ok (assign_parsed df (to_datetime texts)))%result.

Definition isnull (r : Row) : bool :=
  match datetime r with
  | Some _ => false
  | None => true
  end.

(** Lines 68-70. *)
Definition show_parsing_issues (df : list Row) : Script unit :=
  if existsb isnull df
  then (show (Warning "Some datetime values could not be parsed.") ;;
        show (Dataframe (filter isnull df)))%script
  else sret tt.

(** *** Lines 79-204: the 3D trajectory figure *)

(** [s[label]] on a Series with the default index [0..n-1]. *)
Definition getitem (s : list Num) (label : nat) : result Num :=
  match nth_error s label with
  | Some v => Ok v
  | None => Raise (KeyError label)
  end.

Definition ground_plane (df : list Row) : Trace :=
  let z0 := minus_10 (series_min (column col_gps_alt df)) in
  let x0 := series_min (column col_lon df) in
  let x1 := series_max (column col_lon df) in
  let y0 := series_min (column col_lat df) in
  let y1 := series_max (column col_lat df) in
  Surface [[z0; z0]; [z0; z0]] [[x0; x1]; [x0; x1]] [[y0; y0]; [y1; y1]]
          "Ground".

(** The path up to row [k] and the marker at row [last]; the figure's
    initial data uses [k = 10], [last = 9], frame [k] uses [last = k - 1]. *)
Definition trajectory_data (df : list Row) (k last : nat) : result (list Trace) :=
  (x <- getitem (column col_lon df) last ;;
   y <- getitem (column col_lat df) last ;;
   z <- getitem (column col_gps_alt df) last ;;
   Ok [ ground_plane df;
        Scatter3d (firstn k (column col_lon df)) (firstn k (column col_lat df))
                  (firstn k (column col_gps_alt df)) "lines" "Rocket Path";
        Scatter3d [x] [y] [z] "text+markers" "🚀 Rocket" ])%result.

Definition trajectory_frame (df : list Row) (k : nat) : result Frame :=
  (data <- trajectory_data df k (k - 1) ;; Ok (mkFrame data (str k)))%result.

Definition trajectory_step (k : nat) : SliderStep :=
  mkStep (str k) (str (k * 50) ++ " ms")%string.

Definition trajectory_figure (df : list Row) : result Figure :=
  (frames <- comprehension (trajectory_frame df) (range 10 (List.length df) 5) ;;
   let slider_steps := map trajectory_step (range 10 (List.length df) 5) in
   data <- trajectory_data df 10 9 ;;
   Ok (mkFigure data "🛰️ Live Rocket Trajectory with Time Slider"
                slider_steps frames))%result.

(** *** Lines 211-264: [create_time_slider_frames] *)

(** The traces of lines 219-220 and 231-232: the first [k] rows of the
    [datetime] column against the first [k] rows of each column. *)
Definition prefix_traces (df : list Row) (y_cols : list Column) (k : nat)
  : list Trace :=
  map (fun col => Scatter (firstn k (datetime_column df))
                          (firstn k (column col df)) "lines" (col_name col))
      y_cols.

(** [df['datetime'].iloc[k-1].strftime("%H:%M:%S")]: [iloc] raises out of
    bounds, and NaT has no [strftime]. *)
Definition slider_label (df : list Row) (k : nat) : result string :=
  match nth_error (datetime_column df) (k - 1) with
  | None => Raise (IndexError (k - 1))
  | Some None => Raise (ValueError "NaTType does not support strftime")
  | Some (Some t) => Ok (strftime_HMS t)
  end.

(** The loop of lines 217-228 over the values [ks] of the range, with the
    two lists it appends to. *)
Fixpoint slider_loop (df : list Row) (y_cols : list Column) (ks : list nat)
    (frames : list Frame) (slider_steps : list SliderStep)
  : result (list Frame * list SliderStep) :=
  match ks with
  | [] => Ok (frames, slider_steps)
  | k :: ks' =>
      let frame_data := prefix_traces df y_cols k in
      let frames := frames ++ [mkFrame frame_data (str k)] in
      (label <- slider_label df k ;;
       slider_loop df y_cols ks' frames
                   (slider_steps ++ [mkStep (str k) label]))%result
  end.

Definition create_time_slider_frames (df : list Row) (y_cols : list Column)
    (y_label : string) : result Figure :=
  let n_points := List.length df in
  let step_size := Nat.max 1 (n_points / 30) in
  (fs <- slider_loop df y_cols (range step_size (n_points + 1) step_size) [] [] ;;
   let initial_data := prefix_traces df y_cols step_size in
   Ok (mkFigure initial_data (y_label ++ " over Time with Time Slider")%string
                (snd fs) (fst fs)))%result.

(** *** Lines 288-308: the static figures ([px.line], [px.scatter]) *)

(** The [y] argument of [px.line] and [px.scatter]: one column name or a
    list of them. *)
Inductive PxY : Type :=
| Y (col : Column)
| Ys (cols : list Column).

(** One trace per column over all rows; the trace of a single column name
    has no name of its own, the traces of a list are named after the
    columns. *)
Definition px_figure (mode : string) (df : list Row) (y : PxY)
    (title : string) : Figure :=
  mkFigure (match y with
            | Y col => [Scatter (datetime_column df) (column col df) mode ""]
            | Ys cols =>
                map (fun col => Scatter (datetime_column df) (column col df)
                                        mode (col_name col)) cols
            end)
           title [] [].

(** *** The script *)

Definition slider_chart (heading : string) (df : list Row)
    (y_cols : list Column) (y_label : string) : Script unit :=
  (show (Subheader heading) ;;
   fig <- eval (create_time_slider_frames df y_cols y_label) ;;
   show (PlotlyChart fig))%script.

Definition static_chart (heading mode : string) (df : list Row)
    (y : PxY) (title : string) : Script unit :=
  (show (Subheader heading) ;;
   show (PlotlyChart (px_figure mode df y title)))%script.

(** Lines 75-312, on the table with its [datetime] column. *)
Definition render (df : list Row) : Script unit :=
  (fig <- eval (trajectory_figure df) ;;
   show (PlotlyChart fig) ;;
   show (Subheader "📈 Live Graphs Streaming data") ;;
   slider_chart "📈 Altitude over Time" df [col_alt] "Altitude" ;;
   slider_chart "🎯 Accelerometer Data" df [col_acc_x; col_acc_y; col_acc_z]
                "Acceleration" ;;
   slider_chart "🛰️ Orientation (Euler Angles)" df [col_eu_x; col_eu_y; col_eu_z]
                "Orientation" ;;
   slider_chart "💡 Valve State Over Time" df [col_valve_state] "Valve State" ;;
   show (Subheader "📈 Static Graphs all data") ;;
   static_chart "📈 Altitude over Time" "lines" df (Y col_alt) "Altitude vs Time" ;;
   static_chart "🎯 Accelerometer Data" "lines" df
                (Ys [col_acc_x; col_acc_y; col_acc_z]) "Acceleration over Time" ;;
   static_chart "🛰️ Orientation (Euler Angles)" "lines" df
                (Ys [col_eu_x; col_eu_y; col_eu_z]) "Orientation over Time" ;;
   static_chart "💡 Valve State Over Time" "markers" df (Y col_valve_state)
                "Valve State" ;;
   show (Markdown "---") ;;
   show (Markdown "Developed with ❤️ using Streamlit and Plotly, HAHAHAHA"))%script.

(** The table lines 62 and 65 leave when neither raises: the [time] column
    substituted, the [datetime] column added. *)
Definition prepare (df : list RawRow) : list Row :=
  assign_datetime (assign_time df).

(** Lines 59-65: the table the charts are drawn from, or the exception of
    line 62 or of line 65. *)
Definition process_time (df : list RawRow) : result (list Row) :=
  (df <- fix_time df ;; parse_datetime df)%result.

(** [df.empty] for a table of the schema: no rows. *)
Definition empty (df : list RawRow) : bool :=
  match df with
  | [] => true
  | _ :: _ => false
  end.

(** Lines 21-31: the title and the two inputs of the sidebar
    ([st.set_page_config] shows nothing). *)
Definition sidebar : Script unit :=
  (show (Title "🚀 Rocket Telemetry Dashboard") ;;
   show (SidebarHeader "Flight Data Filters") ;;
   show (SidebarSelectbox "Select existing dataset"
                          [dataset_key IdealLaunch; dataset_key SensorData]) ;;
   show (SidebarFileUploader "Or upload your CSV data"))%script.

(** Lines 47-312: the page drawn for the loaded table. *)
Definition page (df : list RawRow) (dataset_name : string) : Script unit :=
  (show (Markdown ("### Currently loaded dataset: **" ++ dataset_name ++ "**")%string) ;;
   show (SidebarWrite ("Dataset: " ++ dataset_name)%string) ;;
   show (SidebarWrite ("Total Records: " ++ str (List.length df))%string) ;;
   (if empty df
    then (show (Warning "No data found in dataset.") ;; st_stop)
    else sret tt) ;;
   df <- eval (process_time df) ;;
   show_parsing_issues df ;;
   render df)%script.

Definition main (uploaded_file : option Upload) (selected_dataset : Dataset)
  : Script unit :=
  (sidebar ;;
   let (df, dataset_name) := load uploaded_file selected_dataset in
   page df dataset_name)%script.

(** *** Vocabulary for the properties of the frames *)

Definition is_prefix {A : Type} (l1 l2 : list A) : Prop :=
  exists rest, l2 = l1 ++ rest.

(** The earlier trace shows an initial part of what the later one shows,
    under the same name. *)
Definition trace_prefix (t1 t2 : Trace) : Prop :=
  match t1, t2 with
  | Scatter x1 y1 mode1 name1, Scatter x2 y2 mode2 name2 =>
      is_prefix x1 x2 /\ is_prefix y1 y2 /\ mode1 = mode2 /\ name1 = name2
  | _, _ => False
  end.

Definition frame_prefix (f g : Frame) : Prop :=
  Forall2 trace_prefix (frame_data f) (frame_data g).

(** The number of rows a 2D trace holds, on both axes. *)
Definition has_rows (k : nat) (t : Trace) : Prop :=
  match t with
  | Scatter x y _ _ => List.length x = k /\ List.length y = k
  | _ => False
  end.

(** The frame lines 218-222 build for the bound [k]. *)
Definition snapshot (df : list Row) (y_cols : list Column) (k : nat) : Frame :=
  mkFrame (prefix_traces df y_cols k) (str k).

(** The row of the [datetime] column that labels the slider step [k]
    holds a timestamp. *)
Definition labelled (df : list Row) (k : nat) : Prop :=
  exists t, nth_error (datetime_column df) (k - 1) = Some (Some t).

(** The step of line 215 and the multiples of it up to the row count. *)
Definition step_size_of (df : list Row) : nat :=
  Nat.max 1 (List.length df / 30).

Definition bounds_of (df : list Row) : list nat :=
  map (fun i => (i + 1) * step_size_of df)
      (seq 0 (List.length df / step_size_of df)).

End Dashboard.

Unset Implicit Arguments.

Arguments Returns {A} a.
Arguments Stopped {A}.
Arguments Crashed {A} e.
Arguments Path {Upload} p.
Arguments Surface {Num Timestamp} z x y name.
Arguments Scatter3d {Num Timestamp} x y z mode name.
Arguments Title {Num Timestamp} s.
Arguments SidebarHeader {Num Timestamp} s.
Arguments SidebarSelectbox {Num Timestamp} label options.
Arguments SidebarFileUploader {Num Timestamp} label.
Arguments SidebarWrite {Num Timestamp} s.
Arguments Markdown {Num Timestamp} s.
Arguments Subheader {Num Timestamp} s.
Arguments Warning {Num Timestamp} s.
Arguments st_stop {Num Timestamp A}.
Arguments sret {Num Timestamp A} a.
Arguments eval {Num Timestamp A} r.
Arguments sidebar {Num Timestamp}.
Arguments date {Num} r.
Arguments time {Num} r.
Arguments cell {Num} c r.
Arguments date_time_text {Num} r.
Arguments sample {Num Timestamp} r.
Arguments datetime {Num Timestamp} r.
Arguments isnull {Num Timestamp} r.
Arguments frame_data {Num Timestamp} f.
Arguments frame_name {Num Timestamp} f.
Arguments trace_prefix {Num Timestamp} t1 t2.
Arguments frame_prefix {Num Timestamp} f g.
Arguments has_rows {Num Timestamp} k t.
Arguments snapshot {Num Timestamp} df y_cols k.
Arguments labelled {Num Timestamp} df k.

(** ** A concrete instance, for running the script on sample tables

    Numeric cells are integers, a timestamp is kept as its ISO text, the
    upload is the table it holds, and the parser knows the texts of the
    forms [YYYY-MM-DD HH:MM:SS.fff] and [YYYY-MM-DD HH:MM:SS]. *)
Module Sample.

Definition Num : Type := Z.
Definition Timestamp : Type := string.
Definition Upload : Type := list (RawRow Num).

Definition ascii_digit (c : ascii) : bool :=
  let n := nat_of_ascii c in (48 <=? n) && (n <=? 57).

Fixpoint matches (pattern s : string) : bool :=
  match pattern, s with
  | EmptyString, EmptyString => true
  | String p pattern', String c s' =>
      (if Ascii.eqb p "d"%char then ascii_digit c else Ascii.eqb p c)
      && matches pattern' s'
  | _, _ => false
  end.

(** The formats the sample parser knows, with and without milliseconds. *)
Definition formats : list string :=
  ["dddd-dd-dd dd:dd:dd.ddd"; "dddd-dd-dd dd:dd:dd"].

Definition guess_format (s : string) : option string :=
  find (fun f => matches f s) formats.

Fixpoint first_text (col : list (option string)) : option string :=
  match col with
  | [] => None
  | Some s :: _ => Some s
  | None :: col' => first_text col'
  end.

Definition parse_with (fmt : string) (c : option string) : option Timestamp :=
  match c with
  | Some s => if matches fmt s then Some s else None
  | None => None
  end.

Definition parse_alone (c : option string) : option Timestamp :=
  match c with
  | Some s => if existsb (fun f => matches f s) formats then Some s else None
  | None => None
  end.

(** The column parse, as pandas 2 does it: the format is guessed from the
    first text of the column and every text is parsed in that format; when
    no format can be guessed from the first text, every text is parsed on
    its own. *)
Definition to_datetime (col : list (option string)) : list (option Timestamp) :=
  match first_text col with
  | Some s0 =>
      match guess_format s0 with
      | Some fmt => map (parse_with fmt) col
      | None => map parse_alone col
      end
  | None => map (fun _ => None) col
  end.

Definition strftime_HMS (t : Timestamp) : string := substring 11 8 t.

Definition series_min (s : list Num) : Num :=
  match s with
  | [] => 0%Z
  | v :: s' => fold_left Z.min s' v
  end.

Definition series_max (s : list Num) : Num :=
  match s with
  | [] => 0%Z
  | v :: s' => fold_left Z.max s' v
  end.

Definition minus_10 (v : Num) : Num := (v - 10)%Z.

(** No bundled file is on disk in the sample: a path reads as a table
    with a header and no rows. *)
Definition read_csv (src : Source Upload) : list (RawRow Num) :=
  match src with
  | Path _ => []
  | Buffer f => f
  end.

Definition two_digits (k : nat) : string :=
  if k <? 10 then ("0" ++ str k)%string else str k.

(** The sample at second [i] of the flight, in the format of the bundled
    files: milliseconds after a colon. *)
Definition row (i : nat) : RawRow Num :=
  let v := Z.of_nat i in
  mkRawRow (Some "2024-05-01")
           (Some ("12:" ++ two_digits (i / 60) ++ ":" ++ two_digits (i mod 60)
                  ++ ":000")%string)
           v v v v v v v v v v v.

Definition table (n : nat) : list (RawRow Num) := map row (seq 0 n).

(** The same table with the time of row [0] damaged. *)
Definition damaged (n : nat) : list (RawRow Num) :=
  match table n with
  | [] => []
  | r :: rest => set_time r (Some "unknown") :: rest
  end.

Definition run (uploaded_file : option Upload) (selected_dataset : Dataset)
  : Script Num Timestamp unit :=
  main read_csv to_datetime strftime_HMS series_min series_max minus_10
       uploaded_file selected_dataset.

Definition is_chart (w : Widget Num Timestamp) : bool :=
  match w with
  | PlotlyChart _ => true
  | _ => false
  end.

End Sample.

(** ** Vocabulary for the properties of a run *)

Section RunVocabulary.

Context {Num Timestamp : Type}.

Definition shows_chart (w : Widget Num Timestamp) : bool :=
  match w with
  | PlotlyChart _ => true
  | _ => false
  end.

(** The number of [st.plotly_chart] calls a run reached. *)
Definition charts_shown {A : Type} (run : Script Num Timestamp A) : nat :=
  List.length (filter shows_chart (fst run)).

(** Row [k - 1] of the [datetime] column is NaT. *)
Definition unlabelled (df : list (Row Num Timestamp)) (k : nat) : Prop :=
  nth_error (datetime_column df) (k - 1) = Some None.

(** A slider step of the 2D builder for the bound [k]: it points at the
    frame named [str k] and is labelled with the time of row [k - 1]. *)
Definition step_of (strftime_HMS : Timestamp -> string)
    (df : list (Row Num Timestamp)) (k : nat) (st : SliderStep) : Prop :=
  step_frame st = str k /\
  exists t, nth_error (datetime_column df) (k - 1) = Some (Some t) /\
            step_label st = strftime_HMS t.

(** The seven widgets shown before line 53: the title, the sidebar and
    the name and the record count of the loaded dataset. *)
Definition header_widgets (dataset_name : string) (records : nat)
  : list (Widget Num Timestamp) :=
  [ Title "🚀 Rocket Telemetry Dashboard";
    SidebarHeader "Flight Data Filters";
    SidebarSelectbox "Select existing dataset" ["Ideal Launch"; "Sensor Data"];
    SidebarFileUploader "Or upload your CSV data";
    Markdown ("### Currently loaded dataset: **" ++ dataset_name ++ "**")%string;
    SidebarWrite ("Dataset: " ++ dataset_name)%string;
    SidebarWrite ("Total Records: " ++ str records)%string ].

(** What lines 68-70 show for a table. *)
Definition issue_widgets (rows : list (Row Num Timestamp))
  : list (Widget Num Timestamp) :=
  if existsb isnull rows
  then [ Warning "Some datetime values could not be parsed.";
         Dataframe (filter isnull rows) ]
  else [].

End RunVocabulary.

(** * Properties *)

(** ** [range] *)

Lemma range_length_multiples (n step : nat) :
  1 <= step -> range_length step (n + 1) step = n / step.
Proof.
  intros Hs. unfold range_length.
  destruct (Nat.ltb_spec step (n + 1)) as [Hlt | Hge].
  - replace (n + 1 - step - 1) with (n - step) by lia.
    assert (Hn : n = (n - step) + 1 * step) by lia.
    rewrite Hn at 2. rewrite Nat.div_add by lia. reflexivity.
  - symmetry. apply Nat.div_small. lia.
Qed.

(** The range of line 217 is the list of the multiples [step], [2*step], ...
    up to [n]. *)
Lemma range_multiples (n step : nat) :
  1 <= step ->
  range step (n + 1) step = map (fun i => (i + 1) * step) (seq 0 (n / step)).
Proof.
  intros Hs. unfold range. rewrite range_length_multiples by assumption.
  apply map_ext. intros i. lia.
Qed.

Lemma in_range (start stop step k : nat) :
  1 <= step ->
  In k (range start stop step) <->
  (exists i, k = start + i * step) /\ start <= k < stop.
Proof.
  intros Hs. unfold range, range_length. rewrite in_map_iff.
  destruct (Nat.ltb_spec start stop) as [Hlt | Hge].
  - split.
    + intros [i [Hk Hi]]. apply in_seq in Hi. split; [exists i; lia |].
      subst k. split; [lia |].
      assert (Hq : i <= (stop - start - 1) / step) by lia.
      pose proof (Nat.Div0.mul_div_le (stop - start - 1) step) as Hm. nia.
    + intros [[i Hk] Hb]. exists i. split; [lia |]. apply in_seq.
      assert (Hq : i * step <= stop - start - 1) by lia.
      apply (Nat.Div0.div_le_mono _ _ step) in Hq.
      rewrite Nat.div_mul in Hq by lia. lia.
  - split.
    + intros [i [_ Hi]]. simpl in Hi. contradiction.
    + intros [_ Hb]. lia.
Qed.

(** ** The time format of line 62 *)

Module TimeFormatFacts.
Import TimeFormat.

Lemma punct_false (b : ascii) :
  N_of_ascii b <> 58%N -> N_of_ascii b <> 46%N -> punct b = false.
Proof.
  intros Hcolon Hperiod. unfold punct.
  destruct (Ascii.eqb_spec b ":"%char) as [-> | _];
    [exfalso; apply Hcolon; reflexivity |].
  destruct (Ascii.eqb_spec b "."%char) as [-> | _];
    [exfalso; apply Hperiod; reflexivity | reflexivity].
Qed.

Lemma continuation_plain (s r : string) (c : N) :
  continuation s = Some (c, r) -> plain r = true -> plain s = true.
Proof.
  destruct s as [| b s']; simpl; [discriminate |].
  destruct ((128 <=? N_of_ascii b)%N && (N_of_ascii b <? 192)%N) eqn:Hb;
    [| discriminate].
  intros H Hr. injection H as _ <-.
  apply andb_prop in Hb. destruct Hb as [Hlo _]. apply N.leb_le in Hlo.
  rewrite punct_false, Hr by lia. reflexivity.
Qed.

(** The bytes of a decimal digit are neither a colon nor a period. *)
Lemma digit_plain (s r : string) :
  digit s = Some r -> plain r = true -> plain s = true.
Proof.
  unfold digit, next_char. destruct s as [| b0 r0]; [discriminate |].
  destruct (N_of_ascii b0 <? 128)%N eqn:Hascii.
  - unfold is_decimal. rewrite Hascii.
    destruct ((48 <=? N_of_ascii b0)%N && (N_of_ascii b0 <=? 57)%N) eqn:Hd;
      [| discriminate].
    intros H Hr. injection H as <-.
    apply andb_prop in Hd. destruct Hd as [Hlo Hhi].
    apply N.leb_le in Hlo. apply N.leb_le in Hhi.
    simpl. rewrite punct_false, Hr by lia. reflexivity.
  - apply N.ltb_ge in Hascii.
    assert (Hb0 : punct b0 = false) by (apply punct_false; lia).
    destruct ((194 <=? N_of_ascii b0)%N && (N_of_ascii b0 <? 224)%N).
    { destruct (continuation r0) as [[c1 r1] |] eqn:H1; [| discriminate].
      destruct (is_decimal _); [| discriminate].
      intros H Hr. injection H as <-. simpl. rewrite Hb0. simpl.
      eauto using continuation_plain. }
    destruct ((224 <=? N_of_ascii b0)%N && (N_of_ascii b0 <? 240)%N).
    { destruct (continuation r0) as [[c1 r1] |] eqn:H1; [| discriminate].
      destruct (continuation r1) as [[c2 r2] |] eqn:H2; [| discriminate].
      destruct (is_decimal _); [| discriminate].
      intros H Hr. injection H as <-. simpl. rewrite Hb0. simpl.
      eauto using continuation_plain. }
    destruct ((240 <=? N_of_ascii b0)%N && (N_of_ascii b0 <? 245)%N);
      [| discriminate].
    destruct (continuation r0) as [[c1 r1] |] eqn:H1; [| discriminate].
    destruct (continuation r1) as [[c2 r2] |] eqn:H2; [| discriminate].
    destruct (continuation r2) as [[c3 r3] |] eqn:H3; [| discriminate].
    destruct (is_decimal _); [| discriminate].
    intros H Hr. injection H as <-. simpl. rewrite Hb0. simpl.
    eauto using continuation_plain.
Qed.

Lemma at_end_plain (s : string) : at_end s = true -> plain s = true.
Proof.
  destruct s as [| nl [| c s]]; simpl; [reflexivity | | discriminate].
  intros H. apply Ascii.eqb_eq in H. subst nl. reflexivity.
Qed.

(** What the lookahead accepts holds no colon and no period. *)
Lemma lookahead_plain (rest : string) :
  lookahead rest = true -> plain rest = true.
Proof.
  unfold lookahead.
  destruct (digit rest) as [r1 |] eqn:H1; [| discriminate].
  destruct (digit r1) as [r2 |] eqn:H2; [| discriminate].
  destruct (digit r2) as [r3 |] eqn:H3; [| discriminate].
  intros Hend. eauto using digit_plain, at_end_plain.
Qed.

Lemma plain_app_punct (p q : string) (c : ascii) :
  punct c = true -> plain (p ++ String c q) = false.
Proof.
  intros Hc. induction p as [| b p IH]; simpl.
  - rewrite Hc. reflexivity.
  - rewrite IH. apply andb_false_r.
Qed.

(** The lookahead never succeeds on a text with a colon or a period in it. *)
Lemma lookahead_punct (p q : string) (c : ascii) :
  punct c = true -> lookahead (p ++ String c q) = false.
Proof.
  intros Hc. destruct (lookahead (p ++ String c q)) eqn:Hl; [| reflexivity].
  apply lookahead_plain in Hl. rewrite plain_app_punct in Hl by exact Hc.
  discriminate Hl.
Qed.

Lemma sub_colon_cons (c : ascii) (rest : string) :
  sub_colon (String c rest) =
  if Ascii.eqb c ":"%char && lookahead rest
  then String "."%char (sub_colon rest)
  else String c (sub_colon rest).
Proof. reflexivity. Qed.

Lemma sub_colon_of_plain (s : string) : plain s = true -> sub_colon s = s.
Proof.
  induction s as [| c s IH]; [reflexivity |]. simpl plain. intros H.
  apply andb_prop in H. destruct H as [Hc Hs].
  rewrite sub_colon_cons. unfold punct in Hc.
  destruct (Ascii.eqb c ":"%char); [discriminate Hc |].
  simpl. rewrite IH by exact Hs. reflexivity.
Qed.

(** A colon followed by three digits and the end of the text (then
    possibly the final newline) is turned into a period; nothing else
    changes. *)
Lemma sub_colon_match (p rest : string) :
  lookahead rest = true ->
  sub_colon (p ++ String ":" rest) = (p ++ String "." rest)%string.
Proof.
  intros Hl. induction p as [| c p IH]; cbn [append]; rewrite sub_colon_cons.
  - rewrite Hl. cbn [Ascii.eqb Bool.eqb andb].
    rewrite sub_colon_of_plain by (apply lookahead_plain, Hl). reflexivity.
  - rewrite lookahead_punct, andb_false_r by reflexivity.
    f_equal. exact IH.
Qed.

(** A text in which the pattern matches nowhere is left as it is. *)
Lemma sub_colon_no_match (s : string) :
  (forall p rest, s = (p ++ String ":" rest)%string -> lookahead rest = false) ->
  sub_colon s = s.
Proof.
  induction s as [| c s IH]; intros Hno; [reflexivity |].
  rewrite sub_colon_cons.
  assert (Htest : Ascii.eqb c ":"%char && lookahead s = false).
  { destruct (Ascii.eqb_spec c ":"%char) as [-> | _]; [| reflexivity].
    simpl. apply (Hno EmptyString). reflexivity. }
  rewrite Htest. f_equal. apply IH. intros p rest Hs.
  apply (Hno (String c p)). simpl. rewrite Hs. reflexivity.
Qed.

End TimeFormatFacts.

(** ** The figures *)

Section FrameBuilder.

Context {Num Timestamp : Type}.
Variable strftime_HMS : Timestamp -> string.

Implicit Types (df : list (Row Num Timestamp)) (y_cols : list Column).
Implicit Types (ks : list nat).

Lemma slider_loop_ok df y_cols ks :
  forall frames steps frames' steps',
    slider_loop strftime_HMS df y_cols ks frames steps = Ok (frames', steps') ->
    frames' = frames ++ map (snapshot df y_cols) ks /\
    map step_frame steps' = map step_frame steps ++ map str ks /\
    Forall (labelled df) ks.
Proof.
  induction ks as [| k ks IH]; intros frames steps frames' steps' Hrun.
  - simpl in Hrun. injection Hrun as <- <-.
    rewrite !app_nil_r. auto.
  - simpl in Hrun. unfold slider_label in Hrun.
    destruct (nth_error (datetime_column df) (k - 1)) as [[t |] |] eqn:Hk;
      simpl in Hrun; try discriminate Hrun.
    apply IH in Hrun. destruct Hrun as (Hf & Hs & Hl).
    repeat split.
    + rewrite Hf, <- app_assoc. reflexivity.
    + rewrite Hs, map_app, <- app_assoc. reflexivity.
    + constructor; [exists t; exact Hk | exact Hl].
Qed.

Lemma slider_loop_total df y_cols ks :
  Forall (labelled df) ks ->
  forall frames steps,
    exists r, slider_loop strftime_HMS df y_cols ks frames steps = Ok r.
Proof.
  induction 1 as [| k ks [t Hk] _ IH]; intros frames steps.
  - eexists. reflexivity.
  - simpl. unfold slider_label. rewrite Hk. simpl. apply IH.
Qed.

(** One slider row without a timestamp stops the loop with the error of
    [NaT.strftime], whatever the other rows hold. *)
Lemma slider_loop_NaT df y_cols ks :
  Forall (fun k => 1 <= k <= List.length df) ks ->
  Exists (fun k => nth_error (datetime_column df) (k - 1) = Some None) ks ->
  forall frames steps,
    slider_loop strftime_HMS df y_cols ks frames steps =
    Raise (ValueError "NaTType does not support strftime").
Proof.
  intros Hin Hex. induction ks as [| k ks IH]; intros frames steps.
  - inversion Hex.
  - inversion Hin as [| ? ? Hk Hrest]; subst. simpl. unfold slider_label.
    destruct (nth_error (datetime_column df) (k - 1)) as [[t |] |] eqn:Hnth.
    + simpl. apply IH; [exact Hrest |].
      inversion Hex as [? ? Hhere | ? ? Hlater]; subst;
        [congruence | exact Hlater].
    + reflexivity.
    + apply nth_error_None in Hnth. unfold datetime_column in Hnth.
      rewrite length_map in Hnth. lia.
Qed.

Lemma step_size_pos df : 1 <= step_size_of df.
Proof. unfold step_size_of. lia. Qed.

Lemma bounds_of_range df :
  range (step_size_of df) (List.length df + 1) (step_size_of df) = bounds_of df.
Proof. apply range_multiples, step_size_pos. Qed.

Lemma bounds_of_in df k :
  In k (bounds_of df) -> 1 <= k <= List.length df.
Proof.
  unfold bounds_of. pose proof (step_size_pos df) as Hs.
  intros Hk. apply in_map_iff in Hk. destruct Hk as [i [<- Hi]].
  apply in_seq in Hi.
  pose proof (Nat.Div0.mul_div_le (List.length df) (step_size_of df)). nia.
Qed.

(** What a returned figure holds. *)
Lemma create_time_slider_frames_ok df y_cols y_label fig :
  create_time_slider_frames strftime_HMS df y_cols y_label = Ok fig ->
  fig_frames fig = map (snapshot df y_cols) (bounds_of df) /\
  fig_data fig = prefix_traces df y_cols (step_size_of df) /\
  map step_frame (fig_steps fig) = map str (bounds_of df) /\
  Forall (labelled df) (bounds_of df).
Proof.
  unfold create_time_slider_frames. fold (step_size_of df).
  rewrite bounds_of_range.
  destruct (slider_loop strftime_HMS df y_cols (bounds_of df) [] [])
    as [[frames steps] | e] eqn:Hloop; simpl; [| discriminate].
  intros Hfig. injection Hfig as <-. simpl.
  apply slider_loop_ok in Hloop. destruct Hloop as (Hf & Hs & Hl).
  auto.
Qed.

Lemma create_time_slider_frames_total df y_cols y_label :
  Forall (labelled df) (bounds_of df) ->
  exists fig, create_time_slider_frames strftime_HMS df y_cols y_label = Ok fig.
Proof.
  intros Hl. unfold create_time_slider_frames. fold (step_size_of df).
  rewrite bounds_of_range.
  destruct (slider_loop_total df y_cols _ Hl [] []) as [r ->].
  simpl. eexists. reflexivity.
Qed.

Lemma create_time_slider_frames_NaT df y_cols y_label :
  Exists (fun k => nth_error (datetime_column df) (k - 1) = Some None)
         (bounds_of df) ->
  create_time_slider_frames strftime_HMS df y_cols y_label =
  Raise (ValueError "NaTType does not support strftime").
Proof.
  intros Hex. unfold create_time_slider_frames. fold (step_size_of df).
  rewrite bounds_of_range, slider_loop_NaT; [reflexivity | | exact Hex].
  apply Forall_forall. intros k. apply bounds_of_in.
Qed.

(** When every row has a timestamp, every slider row is labelled. *)
Lemma all_parsed_labelled df :
  Forall (fun r => datetime r <> None) df ->
  Forall (labelled df) (bounds_of df).
Proof.
  intros Hall. apply Forall_forall. intros k Hk.
  apply bounds_of_in in Hk. unfold labelled, datetime_column.
  destruct (nth_error df (k - 1)) as [r |] eqn:Hr.
  - rewrite (map_nth_error _ _ _ Hr).
    rewrite Forall_forall in Hall.
    specialize (Hall r (nth_error_In _ _ Hr)).
    destruct (datetime r) as [t |]; [exists t; reflexivity | congruence].
  - apply nth_error_None in Hr. lia.
Qed.

(** *** Prefixes of the columns *)

Lemma firstn_is_prefix {A : Type} (l : list A) (j k : nat) :
  j <= k -> is_prefix (firstn j l) (firstn k l).
Proof.
  intros Hjk. exists (skipn j (firstn k l)).
  rewrite <- (firstn_skipn j (firstn k l)) at 1.
  rewrite firstn_firstn, Nat.min_l by exact Hjk. reflexivity.
Qed.

Lemma prefix_traces_grow df y_cols (j k : nat) :
  j <= k ->
  Forall2 trace_prefix (prefix_traces df y_cols j) (prefix_traces df y_cols k).
Proof.
  intros Hjk. unfold prefix_traces.
  induction y_cols as [| col y_cols IH]; simpl; constructor; [| exact IH].
  simpl. auto using firstn_is_prefix.
Qed.

Lemma prefix_traces_rows df y_cols (k : nat) :
  k <= List.length df -> Forall (has_rows k) (prefix_traces df y_cols k).
Proof.
  intros Hk. unfold prefix_traces. apply Forall_forall. intros t Ht.
  apply in_map_iff in Ht. destruct Ht as [col [<- _]]. simpl.
  unfold datetime_column, column.
  rewrite !length_firstn, !length_map. lia.
Qed.

Lemma bounds_of_length df :
  List.length (bounds_of df) = List.length df / step_size_of df.
Proof. unfold bounds_of. rewrite length_map, length_seq. reflexivity. Qed.

Lemma bounds_of_nth df (i k : nat) :
  nth_error (bounds_of df) i = Some k -> k = (i + 1) * step_size_of df.
Proof.
  unfold bounds_of. intros Hk.
  rewrite nth_error_map, nth_error_seq in Hk.
  destruct (i <? List.length df / step_size_of df); simpl in Hk;
    [injection Hk as <-; reflexivity | discriminate Hk].
Qed.

Lemma step_size_le df : 1 <= List.length df -> step_size_of df <= List.length df.
Proof.
  intros Hn. unfold step_size_of.
  pose proof (Nat.Div0.mul_div_le (List.length df) 30). lia.
Qed.

Lemma bounds_of_head df :
  1 <= List.length df ->
  exists rest, bounds_of df = step_size_of df :: rest.
Proof.
  intros Hn. unfold bounds_of.
  pose proof (step_size_pos df) as Hs. pose proof (step_size_le df Hn) as Hle.
  assert (Hq : 1 <= List.length df / step_size_of df).
  { apply Nat.div_le_lower_bound; lia. }
  destruct (List.length df / step_size_of df) as [| q]; [lia |].
  simpl. rewrite Nat.add_0_r. eexists. reflexivity.
Qed.

Lemma snapshots_nth df y_cols (i : nat) (f : Frame Num Timestamp) :
  nth_error (map (snapshot df y_cols) (bounds_of df)) i = Some f ->
  f = snapshot df y_cols ((i + 1) * step_size_of df) /\
  (i + 1) * step_size_of df <= List.length df.
Proof.
  intros Hf. rewrite nth_error_map in Hf.
  destruct (nth_error (bounds_of df) i) as [k |] eqn:Hk; simpl in Hf;
    [injection Hf as <- | discriminate Hf].
  pose proof (nth_error_In _ _ Hk) as Hin. apply bounds_of_in in Hin.
  apply bounds_of_nth in Hk. subst k. split; [reflexivity | lia].
Qed.

(** When the slider rows are labelled the figure is returned, with one
    frame per multiple of the step up to the row count: their number is
    [n / step], and the frame of bound [k] is named [str k] and has [k]
    rows in each trace. *)
Lemma time_slider_frames_of_labelled_table df y_cols y_label :
  1 <= List.length df ->
  Forall (labelled df) (bounds_of df) ->
  exists fig,
    create_time_slider_frames strftime_HMS df y_cols y_label = Ok fig /\
    fig_frames fig = map (snapshot df y_cols) (bounds_of df) /\
    List.length (fig_frames fig) = List.length df / Nat.max 1 (List.length df / 30) /\
    forall i f, nth_error (fig_frames fig) i = Some f ->
      let k := (i + 1) * Nat.max 1 (List.length df / 30) in
      k <= List.length df /\ frame_name f = str k /\
      frame_data f = prefix_traces df y_cols k /\
      Forall (has_rows k) (frame_data f).
Proof.
  intros Hn Hl.
  destruct (create_time_slider_frames_total df y_cols y_label Hl) as [fig Hfig].
  exists fig. split; [exact Hfig |].
  apply create_time_slider_frames_ok in Hfig. destruct Hfig as (Hf & _).
  rewrite Hf. split; [reflexivity |]. split.
  - rewrite length_map. apply bounds_of_length.
  - intros i f Hi. apply snapshots_nth in Hi. destruct Hi as [-> Hle].
    fold (step_size_of df). simpl.
    auto using prefix_traces_rows.
Qed.

(** C5: the frames of a returned figure grow monotonically.  Of two
    consecutive frames the earlier one shows, trace by trace, a prefix of
    what the later one shows, and the frame at position [i] is the one of
    bound [k = (i+1) * step]: it is named [str k] and holds the rows
    [0 .. k-1] (the first [k] rows) of the [datetime] column and of each
    requested column. *)
Theorem frames_grow_by_prefix df y_cols y_label fig :
  create_time_slider_frames strftime_HMS df y_cols y_label = Ok fig ->
  (forall i f g,
      nth_error (fig_frames fig) i = Some f ->
      nth_error (fig_frames fig) (S i) = Some g ->
      frame_prefix f g) /\
  (forall i f,
      nth_error (fig_frames fig) i = Some f ->
      let k := (i + 1) * Nat.max 1 (List.length df / 30) in
      k <= List.length df /\
      frame_name f = str k /\
      frame_data f =
        map (fun col => Scatter (firstn k (datetime_column df))
                                (firstn k (column col df))
                                "lines" (col_name col)) y_cols).
Proof.
  intros Hfig. apply create_time_slider_frames_ok in Hfig.
  destruct Hfig as (Hf & _). rewrite Hf. split.
  - intros i f g Hi Hsi.
    apply snapshots_nth in Hi. apply snapshots_nth in Hsi.
    destruct Hi as [-> _]. destruct Hsi as [-> _].
    unfold frame_prefix, snapshot. simpl frame_data.
    apply prefix_traces_grow. lia.
  - intros i f Hi. apply snapshots_nth in Hi. destruct Hi as [-> Hle].
    fold (step_size_of df). simpl. auto.
Qed.

(** C10: in a figure returned for a table with at least one row, the
    initial data is the data of the first frame; both are the first
    [step_size] rows of each requested column. *)
Theorem initial_data_is_first_frame df y_cols y_label fig :
  1 <= List.length df ->
  create_time_slider_frames strftime_HMS df y_cols y_label = Ok fig ->
  exists f rest,
    fig_frames fig = f :: rest /\
    frame_data f = fig_data fig /\
    fig_data fig =
      map (fun col =>
             Scatter (firstn (Nat.max 1 (List.length df / 30)) (datetime_column df))
                     (firstn (Nat.max 1 (List.length df / 30)) (column col df))
                     "lines" (col_name col)) y_cols.
Proof.
  intros Hn Hfig. apply create_time_slider_frames_ok in Hfig.
  destruct Hfig as (Hf & Hd & _).
  destruct (bounds_of_head df Hn) as [rest Hb].
  rewrite Hb in Hf. simpl in Hf.
  exists (snapshot df y_cols (step_size_of df)), (map (snapshot df y_cols) rest).
  split; [exact Hf |]. rewrite Hd. split; reflexivity.
Qed.

End FrameBuilder.

Section Trajectory.

Context {Num Timestamp : Type}.
Variables series_min series_max : list Num -> Num.
Variable minus_10 : Num -> Num.

Implicit Types (df : list (Row Num Timestamp)) (s : list Num).

Lemma column_length (c : Column) df :
  List.length (column c df) = List.length df.
Proof. apply length_map. Qed.

Lemma getitem_in_index s (label : nat) :
  label < List.length s -> exists v, getitem s label = Ok v.
Proof.
  intros Hlt. unfold getitem.
  destruct (nth_error s label) as [v |] eqn:Hv; [exists v; reflexivity |].
  apply nth_error_None in Hv. lia.
Qed.

Lemma getitem_not_in_index s (label : nat) :
  List.length s <= label -> getitem s label = Raise (KeyError label).
Proof.
  intros Hge. unfold getitem.
  apply nth_error_None in Hge. rewrite Hge. reflexivity.
Qed.

Lemma trajectory_data_total df (k last : nat) :
  last < List.length df ->
  exists data,
    trajectory_data series_min series_max minus_10 df k last = Ok data.
Proof.
  intros Hlt. unfold trajectory_data.
  destruct (getitem_in_index (column col_lon df) last) as [x ->];
    [rewrite column_length; exact Hlt |].
  destruct (getitem_in_index (column col_lat df) last) as [y ->];
    [rewrite column_length; exact Hlt |].
  destruct (getitem_in_index (column col_gps_alt df) last) as [z ->];
    [rewrite column_length; exact Hlt |].
  simpl. eexists. reflexivity.
Qed.

Lemma trajectory_data_short df (k last : nat) :
  List.length df <= last ->
  trajectory_data series_min series_max minus_10 df k last =
  Raise (KeyError last).
Proof.
  intros Hge. unfold trajectory_data.
  rewrite getitem_not_in_index by (rewrite column_length; exact Hge).
  reflexivity.
Qed.

(** The frames of the comprehension of lines 90-118: none of its row
    accesses fails, since [k - 1 < k < len(df)]. *)
Lemma trajectory_frames_total df (ks : list nat) :
  Forall (fun k => 1 <= k < List.length df) ks ->
  exists frames,
    comprehension (trajectory_frame series_min series_max minus_10 df) ks
    = Ok frames /\
    map frame_name frames = map str ks.
Proof.
  induction 1 as [| k ks Hk _ [frames [Hrun Hnames]]].
  - exists []. split; reflexivity.
  - simpl. unfold trajectory_frame at 1.
    destruct (trajectory_data_total df k (k - 1)) as [data ->]; [lia |].
    simpl. rewrite Hrun. simpl.
    eexists. split; [reflexivity |]. simpl. rewrite Hnames. reflexivity.
Qed.

Lemma trajectory_range_bounds df :
  Forall (fun k => 1 <= k < List.length df) (range 10 (List.length df) 5).
Proof.
  apply Forall_forall. intros k Hk. apply in_range in Hk; lia.
Qed.

Lemma trajectory_figure_total df :
  10 <= List.length df ->
  exists fig,
    trajectory_figure series_min series_max minus_10 df = Ok fig /\
    map frame_name (fig_frames fig) = map str (range 10 (List.length df) 5).
Proof.
  intros Hn. unfold trajectory_figure.
  destruct (trajectory_frames_total df _ (trajectory_range_bounds df))
    as [frames [-> Hnames]].
  simpl.
  destruct (trajectory_data_total df 10 9) as [data ->]; [lia |].
  simpl. eexists. split; [reflexivity | exact Hnames].
Qed.

Lemma trajectory_figure_short df :
  List.length df < 10 ->
  trajectory_figure series_min series_max minus_10 df = Raise (KeyError 9).
Proof.
  intros Hn. unfold trajectory_figure.
  assert (Hr : range 10 (List.length df) 5 = []).
  { unfold range, range_length.
    destruct (Nat.ltb_spec 10 (List.length df)); [lia | reflexivity]. }
  rewrite Hr. simpl.
  rewrite trajectory_data_short by lia. reflexivity.
Qed.

(** C9: the 3D trajectory chart needs ten rows.  With one to nine rows
    the access to row 9 for the initial figure raises [KeyError]; from ten
    rows on the figure is built, with one frame for each
    [k = 10, 15, 20, ...] below the row count and no other; with exactly
    ten rows it has no frame. *)
Theorem trajectory_needs_ten_rows df :
  (1 <= List.length df < 10 ->
   trajectory_figure series_min series_max minus_10 df = Raise (KeyError 9)) /\
  (10 <= List.length df ->
   exists fig,
     trajectory_figure series_min series_max minus_10 df = Ok fig /\
     map frame_name (fig_frames fig) = map str (range 10 (List.length df) 5)) /\
  (forall k, In k (range 10 (List.length df) 5) <->
             (exists i, k = 10 + i * 5) /\ 10 <= k < List.length df) /\
  (List.length df = 10 ->
   exists fig,
     trajectory_figure series_min series_max minus_10 df = Ok fig /\
     fig_frames fig = []).
Proof.
  split; [intros [_ Hn]; apply trajectory_figure_short, Hn |].
  split; [apply trajectory_figure_total |].
  split.
  - intros k. rewrite in_range by lia. split.
    + intros [Hi Hb]. split; [exact Hi | lia].
    + intros [Hi Hb]. split; [exact Hi | lia].
  - intros Hn.
    destruct (trajectory_figure_total df) as [fig [Hfig Hnames]]; [lia |].
    exists fig. split; [exact Hfig |].
    rewrite Hn in Hnames. change (range 10 10 5) with (@nil nat) in Hnames.
    destruct (fig_frames fig); [reflexivity | discriminate Hnames].
Qed.

End Trajectory.

(** ** The timestamps *)

Section Timestamps.

Context {Num Timestamp : Type}.
Variable to_datetime : list (option string) -> list (option Timestamp).

Implicit Types (df : list (RawRow Num)) (r : RawRow Num).
Implicit Types (parsed : list (option Timestamp)).

Lemma assign_parsed_length df : forall parsed,
  List.length (assign_parsed df parsed) = List.length df.
Proof.
  induction df as [| r df IH]; intros parsed; simpl; [| rewrite IH]; reflexivity.
Qed.


(** Row [i] of the assigned column: the value the parsed series has at [i]
    when the row has a text, NaT otherwise. *)
Lemma assign_parsed_nth df : forall parsed i r,
  nth_error df i = Some r ->
  nth_error (assign_parsed df parsed) i =
  Some (mkRow r (match date_time_text r with
                 | Some _ => nth i parsed None
                 | None => None
                 end)).
Proof.
  induction df as [| r0 df IH]; intros parsed i r Hi.
  - destruct i; discriminate Hi.
  - destruct i as [| i]; simpl in Hi |- *.
    + injection Hi as <-. destruct parsed; reflexivity.
    + rewrite (IH (tl parsed) i r Hi). destruct parsed as [| v parsed];
        [destruct i |]; reflexivity.
Qed.


Lemma prepare_length df :
  List.length (prepare to_datetime df) = List.length df.
Proof.
  unfold prepare, assign_datetime. rewrite assign_parsed_length.
  unfold assign_time. apply length_map.
Qed.

Lemma has_text_time_assign_time df :
  has_text (map date (assign_time df)) = has_text (map date df).
Proof. unfold assign_time. rewrite map_map. reflexivity. Qed.

(** Lines 62 and 65 raise exactly when the [time] column, then the [date]
    column, holds no text; otherwise they leave the prepared table. *)
Lemma process_time_cases df :
  process_time to_datetime df =
  if has_text (map time df)
  then if has_text (map date df)
       then Ok (prepare to_datetime df)
       else Raise TypeError
  else Raise AttributeError.
Proof.
  unfold process_time, fix_time, str_accessor.
  destruct (has_text (map time df)); [| reflexivity]. simpl.
  unfold parse_datetime, date_time_column.
  rewrite has_text_time_assign_time.
  destruct (has_text (map date df)); reflexivity.
Qed.

Lemma process_time_ok df (rows : list (Row Num Timestamp)) :
  process_time to_datetime df = Ok rows ->
  rows = prepare to_datetime df /\
  has_text (map time df) = true /\ has_text (map date df) = true.
Proof.
  rewrite process_time_cases.
  destruct (has_text (map time df)); [| discriminate].
  destruct (has_text (map date df)); [| discriminate].
  intros H. injection H as <-. auto.
Qed.

Lemma has_text_nonempty (cells : list (option string)) :
  has_text cells = true -> cells <> [].
Proof. destruct cells; [discriminate | discriminate]. Qed.

(** The text of a row after line 62. *)
Lemma normalized_texts df :
  map date_time_text (assign_time df) =
  map (fun r => match date r, time r with
                | Some d, Some t =>
                    Some (d ++ " " ++ TimeFormat.sub_colon t)%string
                | _, _ => None
                end) df.
Proof.
  unfold assign_time. rewrite map_map. apply map_ext. intros r.
  unfold date_time_text. simpl.
  destruct (date r) as [d |], (time r) as [t |]; reflexivity.
Qed.

Lemma prepare_nth df (i : nat) r :
  nth_error df i = Some r ->
  nth_error (datetime_column (prepare to_datetime df)) i =
  Some (match date r, time r with
        | Some _, Some _ =>
            nth i (to_datetime (map date_time_text (assign_time df))) None
        | _, _ => None
        end).
Proof.
  intros Hi. unfold datetime_column, prepare, assign_datetime.
  assert (Hi' : nth_error (assign_time df) i =
                Some (set_time r (option_map TimeFormat.sub_colon (time r)))).
  { unfold assign_time. rewrite nth_error_map, Hi. reflexivity. }
  rewrite nth_error_map, (assign_parsed_nth _ _ _ _ Hi'). simpl.
  unfold date_time_text. simpl.
  destruct (date r) as [d |], (time r) as [t |]; reflexivity.
Qed.

(** C3, amended: when the [time] and the [date] column each hold a text,
    lines 62 and 65 do not raise and the derived [datetime] of row [i] is
    what the one coercing parse of the whole column of texts (date, a
    space, the normalised time) returns at [i]; it is NaT when a cell of
    the row is missing or the column parse rejects the text.  Normalising
    turns the colon before three final digits into a period, and leaves a
    text without such a colon as it is. *)
Theorem datetime_is_column_parse_of_normalized_text df :
  has_text (map time df) = true ->
  has_text (map date df) = true ->
  process_time to_datetime df = Ok (prepare to_datetime df) /\
  (forall i r,
      nth_error df i = Some r ->
      nth_error (datetime_column (prepare to_datetime df)) i =
      Some (match date r, time r with
            | Some _, Some _ =>
                nth i (to_datetime
                         (map (fun r =>
                                 match date r, time r with
                                 | Some d, Some t =>
                                     Some (d ++ " " ++ TimeFormat.sub_colon t)%string
                                 | _, _ => None
                                 end) df))
                    None
            | _, _ => None
            end)) /\
  (forall p rest : string,
      TimeFormat.lookahead rest = true ->
      TimeFormat.sub_colon (p ++ String ":" rest) = (p ++ String "." rest)%string) /\
  (forall s : string,
      (forall p rest, s = (p ++ String ":" rest)%string ->
                      TimeFormat.lookahead rest = false) ->
      TimeFormat.sub_colon s = s).
Proof.
  intros Htime Hdate. split.
  - rewrite process_time_cases, Htime, Hdate. reflexivity.
  - split.
    + intros i r Hi. rewrite (prepare_nth df i r Hi), normalized_texts.
      reflexivity.
    + split.
      * apply TimeFormatFacts.sub_colon_match.
      * apply TimeFormatFacts.sub_colon_no_match.
Qed.




End Timestamps.

(** ** The run of the script *)

Section Run.

Context {Num Timestamp Upload : Type}.
Variable read_csv : Source Upload -> list (RawRow Num).
Variable to_datetime : list (option string) -> list (option Timestamp).
Variable strftime_HMS : Timestamp -> string.
Variables series_min series_max : list Num -> Num.
Variable minus_10 : Num -> Num.

Implicit Types (df : list (RawRow Num)) (rows : list (Row Num Timestamp)).

(** C4: when the loaded table has no row the run shows the title, the
    sidebar, the name and the count of the dataset and the warning, then
    stops: no timestamp warning, no table and no chart is shown. *)
Theorem empty_dataset_stops (uploaded_file : option Upload)
    (selected_dataset : Dataset) :
  fst (load read_csv uploaded_file selected_dataset) = [] ->
  main read_csv to_datetime strftime_HMS series_min series_max minus_10
       uploaded_file selected_dataset =
  ([ Title "🚀 Rocket Telemetry Dashboard";
     SidebarHeader "Flight Data Filters";
     SidebarSelectbox "Select existing dataset" ["Ideal Launch"; "Sensor Data"];
     SidebarFileUploader "Or upload your CSV data";
     Markdown ("### Currently loaded dataset: **"
               ++ snd (load read_csv uploaded_file selected_dataset) ++ "**")%string;
     SidebarWrite ("Dataset: "
                   ++ snd (load read_csv uploaded_file selected_dataset))%string;
     SidebarWrite "Total Records: 0";
     Warning "No data found in dataset." ],
   Stopped).
Proof.
  unfold main.
  destruct (load read_csv uploaded_file selected_dataset) as [df name].
  simpl. intros ->. reflexivity.
Qed.

(** C8: an uploaded file is the table that is loaded and drawn, whatever
    the select box holds; the selected bundled file is read only when
    nothing was uploaded. *)
Theorem upload_takes_precedence (f : Upload) (selected other : Dataset) :
  load read_csv (Some f) selected = (read_csv (Buffer f), "Uploaded Data") /\
  main read_csv to_datetime strftime_HMS series_min series_max minus_10
       (Some f) selected =
  sbind sidebar
        (fun _ => page to_datetime strftime_HMS series_min series_max minus_10
                       (read_csv (Buffer f)) "Uploaded Data") /\
  main read_csv to_datetime strftime_HMS series_min series_max minus_10
       (Some f) selected =
  main read_csv to_datetime strftime_HMS series_min series_max minus_10
       (Some f) other /\
  load read_csv None selected =
    (read_csv (Path (DATA_SOURCES selected)), dataset_key selected) /\
  main read_csv to_datetime strftime_HMS series_min series_max minus_10
       None selected =
  sbind sidebar
        (fun _ => page to_datetime strftime_HMS series_min series_max minus_10
                       (read_csv (Path (DATA_SOURCES selected)))
                       (dataset_key selected)).
Proof. repeat split; reflexivity. Qed.

(** The rows without a timestamp are the ones shown under the warning. *)
Lemma show_parsing_issues_shows rows (r : Row Num Timestamp) :
  In r rows -> datetime r = None ->
  show_parsing_issues rows =
    ([ Warning "Some datetime values could not be parsed.";
       Dataframe (filter isnull rows) ], Returns tt) /\
  In r (filter isnull rows).
Proof.
  intros Hin Hnull.
  assert (Hr : isnull r = true) by (unfold isnull; rewrite Hnull; reflexivity).
  unfold show_parsing_issues.
  assert (Hany : existsb isnull rows = true).
  { apply existsb_exists. exists r. auto. }
  rewrite Hany. split; [reflexivity |].
  apply filter_In. auto.
Qed.

Lemma show_parsing_issues_returns rows :
  exists shown, show_parsing_issues rows = (shown, Returns tt).
Proof.
  unfold show_parsing_issues.
  destruct (existsb isnull rows); eexists; reflexivity.
Qed.

Lemma render_short rows :
  List.length rows < 10 ->
  render strftime_HMS series_min series_max minus_10 rows =
  ([], Crashed (KeyError 9)).
Proof.
  intros Hn. unfold render.
  rewrite (trajectory_figure_short series_min series_max minus_10 rows Hn).
  reflexivity.
Qed.

(** With ten rows or more the 3D chart is shown; a slider row without a
    timestamp then ends the run in the first 2D chart. *)
Lemma render_unlabelled rows :
  10 <= List.length rows ->
  Exists (fun k => nth_error (datetime_column rows) (k - 1) = Some None)
         (bounds_of rows) ->
  exists fig,
    render strftime_HMS series_min series_max minus_10 rows =
    ([ PlotlyChart fig;
       Subheader "📈 Live Graphs Streaming data";
       Subheader "📈 Altitude over Time" ],
     Crashed (ValueError "NaTType does not support strftime")).
Proof.
  intros Hn Hex. unfold render.
  destruct (trajectory_figure_total series_min series_max minus_10 rows Hn)
    as [fig [-> _]].
  exists fig. unfold slider_chart at 1.
  rewrite (create_time_slider_frames_NaT strftime_HMS rows _ _ Hex).
  reflexivity.
Qed.

Lemma slider_chart_labelled (heading : string) rows
    (y_cols : list Column) (y_label : string) :
  Forall (labelled rows) (bounds_of rows) ->
  exists fig,
    slider_chart strftime_HMS heading rows y_cols y_label =
    ([Subheader heading; PlotlyChart fig], Returns tt).
Proof.
  intros Hl. unfold slider_chart.
  destruct (create_time_slider_frames_total strftime_HMS rows y_cols y_label Hl)
    as [fig ->].
  exists fig. reflexivity.
Qed.

(** With ten rows or more and every slider row labelled, the run reaches
    the last line and shows the nine charts. *)
Lemma render_completes rows :
  10 <= List.length rows ->
  Forall (labelled rows) (bounds_of rows) ->
  exists shown,
    render strftime_HMS series_min series_max minus_10 rows =
    (shown, Returns tt) /\
    List.length (filter (fun w => match w with PlotlyChart _ => true | _ => false end)
                        shown) = 9.
Proof.
  intros Hn Hl. unfold render.
  destruct (trajectory_figure_total series_min series_max minus_10 rows Hn)
    as [fig [-> _]].
  destruct (slider_chart_labelled "📈 Altitude over Time" rows
              [col_alt] "Altitude" Hl) as [f2 ->].
  destruct (slider_chart_labelled "🎯 Accelerometer Data" rows
              [col_acc_x; col_acc_y; col_acc_z] "Acceleration" Hl) as [f3 ->].
  destruct (slider_chart_labelled "🛰️ Orientation (Euler Angles)" rows
              [col_eu_x; col_eu_y; col_eu_z] "Orientation" Hl) as [f4 ->].
  destruct (slider_chart_labelled "💡 Valve State Over Time" rows
              [col_valve_state] "Valve State" Hl) as [f5 ->].
  eexists. split; reflexivity.
Qed.

Lemma page_nonempty df (dataset_name : string) :
  df <> [] ->
  page to_datetime strftime_HMS series_min series_max minus_10 df dataset_name =
  sbind (show (Markdown ("### Currently loaded dataset: **"
                         ++ dataset_name ++ "**")%string))
    (fun _ => sbind (show (SidebarWrite ("Dataset: " ++ dataset_name)%string))
    (fun _ => sbind (show (SidebarWrite ("Total Records: "
                                         ++ str (List.length df))%string))
    (fun _ => sbind (eval (process_time to_datetime df))
    (fun rows => sbind (show_parsing_issues rows)
    (fun _ => render strftime_HMS series_min series_max minus_10 rows))))).
Proof.
  intros Hne. unfold page. destruct df as [| r df]; [congruence |].
  cbn [empty]. unfold sbind at 4, sret.
  destruct (sbind (eval _) _); reflexivity.
Qed.

End Run.

(** ** The script on sample tables *)

Module SampleRuns.
Import Sample.

Example sub_colon_ms : TimeFormat.sub_colon "12:34:56:789" = "12:34:56.789".
Proof. reflexivity. Qed.

Example sub_colon_plain : TimeFormat.sub_colon "12:34:56" = "12:34:56".
Proof. reflexivity. Qed.

Example sub_colon_inner : TimeFormat.sub_colon "12:345:678" = "12:345.678".
Proof. reflexivity. Qed.

Example str_120 : str 120 = "120".
Proof. reflexivity. Qed.

Example range_10_23_5 : range 10 23 5 = [10; 15; 20].
Proof. reflexivity. Qed.

Example range_3_10_3 : range 3 (9 + 1) 3 = [3; 6; 9].
Proof. reflexivity. Qed.

Example sample_row_parses :
  datetime_column (prepare to_datetime (table 2)) =
  [Some "2024-05-01 12:00:00.000"; Some "2024-05-01 12:00:01.000"].
Proof. reflexivity. Qed.

Example damaged_row_is_NaT :
  datetime_column (prepare to_datetime (damaged 2)) =
  [None; Some "2024-05-01 12:00:01.000"].
Proof. reflexivity. Qed.

Example sixty_five_rows_thirty_two_frames :
  match create_time_slider_frames strftime_HMS (prepare to_datetime (table 65))
                                  [col_alt] "Altitude" with
  | Ok fig => List.length (fig_frames fig) = 32
  | Raise _ => False
  end.
Proof. vm_compute. reflexivity. Qed.

Example no_time_text_raises :
  run (Some (map (fun r => set_time r None) (table 12))) IdealLaunch =
  (header_widgets "Uploaded Data" 12, Crashed AttributeError).
Proof. reflexivity. Qed.

Example mixed_formats_give_NaT :
  datetime_column
    (prepare to_datetime [row 0; set_time (row 1) (Some "12:00:01")]) =
  [Some "2024-05-01 12:00:00.000"; None].
Proof. reflexivity. Qed.

Example sub_colon_other_digits :
  TimeFormat.sub_colon "12:00:00:١٢٣" = "12:00:00.١٢٣".
Proof. reflexivity. Qed.

Example ten_good_rows_complete :
  snd (run (Some (table 10)) IdealLaunch) = Returns tt /\
  List.length (filter is_chart (fst (run (Some (table 10)) IdealLaunch))) = 9.
Proof. split; vm_compute; reflexivity. Qed.

End SampleRuns.

(** C1 at a table the script can load: ten rows, the time of row 0
    unreadable.  The step is 1, the first slider row is row 0, and the
    builder raises instead of returning the ten frames. *)
Theorem time_slider_frames_raise_on_unparsed_row :
  let df := prepare Sample.to_datetime (Sample.damaged 10) in
  List.length df = 10 /\
  Nat.max 1 (List.length df / 30) = 1 /\
  nth_error (datetime_column df) 0 = Some None /\
  create_time_slider_frames Sample.strftime_HMS df [col_alt] "Altitude" =
  Raise (ValueError "NaTType does not support strftime").
Proof. repeat split. Qed.

(** C2 on the same table: the unparsed row is kept and shown under the
    warning, the 3D chart is drawn, and the run ends with the exception of
    [NaT.strftime] in the first 2D chart: of the nine charts one is shown. *)
Theorem unparsed_row_stops_the_charts :
  let df := prepare Sample.to_datetime (Sample.damaged 10) in
  let out := Sample.run (Some (Sample.damaged 10)) IdealLaunch in
  List.length df = List.length (Sample.damaged 10) /\
  List.length (filter isnull df) = 1 /\
  nth_error (fst out) 7 =
    Some (Warning "Some datetime values could not be parsed.") /\
  nth_error (fst out) 8 = Some (Dataframe (filter isnull df)) /\
  map Sample.is_chart (skipn 9 (fst out)) = [true; false; false] /\
  snd out = Crashed (ValueError "NaTType does not support strftime").
Proof. repeat split. Qed.

(** The two-row sample whose rows are written in different formats: the
    time of row 0 has milliseconds, the time of row 1 has none. *)
Lemma datetime_is_column_parse_of_normalized_text_witness :
  nth_error (datetime_column
               (prepare Sample.to_datetime
                  [Sample.row 0; set_time (Sample.row 1) (Some "12:00:01")])) 1 =
  Some (nth 1 (Sample.to_datetime
                 [Some "2024-05-01 12:00:00.000"; Some "2024-05-01 12:00:01"])
              None).
Proof.
  assert (Htime : has_text (map time [Sample.row 0;
                                      set_time (Sample.row 1) (Some "12:00:01")])
                  = true) by reflexivity.
  assert (Hdate : has_text (map date [Sample.row 0;
                                      set_time (Sample.row 1) (Some "12:00:01")])
                  = true) by reflexivity.
  destruct (datetime_is_column_parse_of_normalized_text Sample.to_datetime
              [Sample.row 0; set_time (Sample.row 1) (Some "12:00:01")]
              Htime Hdate) as (_ & Hrow & _).
  exact (Hrow 1 (set_time (Sample.row 1) (Some "12:00:01")) eq_refl).
Defined.

(** C3 as stated fails: the derived value of a row is not the parse of the
    text of that row.  Alone in its table the row of time [12:00:01]
    parses; after a row written with milliseconds the same row is NaT, the
    column being parsed in the format of its first text. *)
Lemma datetime_depends_on_the_other_rows :
  let r0 := Sample.row 0 in
  let r1 := set_time (Sample.row 1) (Some "12:00:01") in
  date_time_text r1 = Some "2024-05-01 12:00:01" /\
  process_time Sample.to_datetime [r1] =
    Ok [mkRow r1 (Some "2024-05-01 12:00:01")] /\
  process_time Sample.to_datetime [r0; r1] =
    Ok [mkRow (set_time r0 (Some "12:00:00.000")) (Some "2024-05-01 12:00:00.000");
        mkRow r1 None].
Proof. repeat split. Qed.

Lemma empty_dataset_stops_witness :
  Sample.run None SensorData =
  ([ Title "🚀 Rocket Telemetry Dashboard";
     SidebarHeader "Flight Data Filters";
     SidebarSelectbox "Select existing dataset" ["Ideal Launch"; "Sensor Data"];
     SidebarFileUploader "Or upload your CSV data";
     Markdown "### Currently loaded dataset: **Sensor Data**";
     SidebarWrite "Dataset: Sensor Data";
     SidebarWrite "Total Records: 0";
     Warning "No data found in dataset." ],
   Stopped).
Proof.
  apply (empty_dataset_stops Sample.read_csv Sample.to_datetime
           Sample.strftime_HMS Sample.series_min Sample.series_max
           Sample.minus_10 None SensorData).
  reflexivity.
Defined.

Lemma frames_grow_by_prefix_witness :
  exists fig,
    create_time_slider_frames Sample.strftime_HMS
      (prepare Sample.to_datetime (Sample.table 65)) [col_alt; col_acc_x]
      "Altitude" = Ok fig /\
    List.length (fig_frames fig) = 32 /\
    (forall i f g,
        nth_error (fig_frames fig) i = Some f ->
        nth_error (fig_frames fig) (S i) = Some g ->
        frame_prefix f g).
Proof.
  destruct (create_time_slider_frames Sample.strftime_HMS
              (prepare Sample.to_datetime (Sample.table 65))
              [col_alt; col_acc_x] "Altitude") as [fig | e] eqn:Hfig;
    [| vm_compute in Hfig; discriminate Hfig].
  exists fig. split; [reflexivity |]. split.
  - vm_compute in Hfig. injection Hfig as <-. reflexivity.
  - exact (proj1 (frames_grow_by_prefix Sample.strftime_HMS _ _ _ fig Hfig)).
Defined.

Lemma initial_data_is_first_frame_witness :
  exists fig f rest,
    create_time_slider_frames Sample.strftime_HMS
      (prepare Sample.to_datetime (Sample.table 65)) [col_valve_state]
      "Valve State" = Ok fig /\
    fig_frames fig = f :: rest /\
    frame_data f = fig_data fig.
Proof.
  destruct (create_time_slider_frames Sample.strftime_HMS
              (prepare Sample.to_datetime (Sample.table 65))
              [col_valve_state] "Valve State") as [fig | e] eqn:Hfig;
    [| vm_compute in Hfig; discriminate Hfig].
  assert (Hn : 1 <= List.length (prepare Sample.to_datetime (Sample.table 65)))
    by (vm_compute; lia).
  destruct (initial_data_is_first_frame Sample.strftime_HMS _ _ _ fig Hn Hfig)
    as (f & rest & Hframes & Hdata & _).
  exists fig, f, rest. auto.
Defined.



Lemma trajectory_needs_ten_rows_witness :
  trajectory_figure Sample.series_min Sample.series_max Sample.minus_10
    (prepare Sample.to_datetime (Sample.table 9)) = Raise (KeyError 9) /\
  (exists fig,
      trajectory_figure Sample.series_min Sample.series_max Sample.minus_10
        (prepare Sample.to_datetime (Sample.table 21)) = Ok fig /\
      map frame_name (fig_frames fig) = ["10"; "15"; "20"]) /\
  (exists fig,
      trajectory_figure Sample.series_min Sample.series_max Sample.minus_10
        (prepare Sample.to_datetime (Sample.table 10)) = Ok fig /\
      fig_frames fig = []).
Proof.
  split; [| split].
  - apply (trajectory_needs_ten_rows Sample.series_min Sample.series_max
             Sample.minus_10 (prepare Sample.to_datetime (Sample.table 9))).
    vm_compute. lia.
  - apply (trajectory_needs_ten_rows Sample.series_min Sample.series_max
             Sample.minus_10 (prepare Sample.to_datetime (Sample.table 21))).
    vm_compute. lia.
  - apply (trajectory_needs_ten_rows Sample.series_min Sample.series_max
             Sample.minus_10 (prepare Sample.to_datetime (Sample.table 10))).
    reflexivity.
Defined.


(** * Further properties of the script *)

(** ** Line 62: what the substitution does to a text *)

Module TimeFormatMore.
Import TimeFormat TimeFormatFacts.

Lemma sub_colon_tail (rest : string) :
  lookahead rest = true -> sub_colon rest = rest.
Proof. intros H. apply sub_colon_of_plain, lookahead_plain, H. Qed.

(** Either the pattern matches nowhere and the text is unchanged, or it
    matches at one colon, which alone is replaced. *)
Lemma sub_colon_cases (s : string) :
  ((forall p rest, s = (p ++ String ":" rest)%string -> lookahead rest = false) /\
   sub_colon s = s) \/
  (exists p rest,
      s = (p ++ String ":" rest)%string /\ lookahead rest = true /\
      sub_colon s = (p ++ String "." rest)%string).
Proof.
  induction s as [| c s IH].
  - left. split; [| reflexivity].
    intros [| a p] rest Hs; discriminate Hs.
  - rewrite sub_colon_cons.
    destruct (Ascii.eqb c ":"%char && lookahead s) eqn:Htest.
    + apply andb_prop in Htest. destruct Htest as [Hc Hl].
      apply Ascii.eqb_eq in Hc. subst c.
      right. exists EmptyString, s. simpl.
      rewrite (sub_colon_tail s Hl). auto.
    + destruct IH as [[Hno Hsame] | (p & rest & Hs & Hl & Hsub)].
      * left. split; [| rewrite Hsame; reflexivity].
        intros [| a p] rest Hs; simpl in Hs; injection Hs as Hc Hs'.
        -- subst c s. rewrite Ascii.eqb_refl in Htest. exact Htest.
        -- apply (Hno p rest Hs').
      * right. exists (String c p), rest. simpl.
        rewrite Hs at 1. rewrite Hsub. auto.
Qed.

Lemma sub_colon_after_period (p rest : string) :
  lookahead rest = true ->
  sub_colon (p ++ String "." rest) = (p ++ String "." rest)%string.
Proof.
  intros Hl. pose proof (sub_colon_tail rest Hl) as Htail.
  induction p as [| c p IH]; cbn [append]; rewrite sub_colon_cons.
  - simpl (Ascii.eqb _ _ && _). rewrite Htail. reflexivity.
  - rewrite lookahead_punct, andb_false_r, IH by reflexivity. reflexivity.
Qed.

Lemma length_append (a b : string) :
  String.length (a ++ b) = String.length a + String.length b.
Proof. induction a as [| c a IH]; simpl; [reflexivity | rewrite IH; reflexivity]. Qed.

End TimeFormatMore.

(** X1: the substitution of line 62 changes at most one character of a
    time text: either no colon is followed by exactly three decimal digits
    (of any script, as [\d] matches them) and the end of the text, and the
    text is returned as it is, or there is one such colon and the result
    differs from the text in that colon alone, now a period.  The length
    never changes. *)
Theorem sub_colon_changes_one_colon (s : string) :
  String.length (TimeFormat.sub_colon s) = String.length s /\
  (((forall p rest, s = (p ++ String ":" rest)%string ->
                    TimeFormat.lookahead rest = false) /\
    TimeFormat.sub_colon s = s) \/
   (exists p rest,
       s = (p ++ String ":" rest)%string /\
       TimeFormat.lookahead rest = true /\
       TimeFormat.sub_colon s = (p ++ String "." rest)%string)).
Proof.
  pose proof (TimeFormatMore.sub_colon_cases s) as Hcases.
  split; [| exact Hcases].
  destruct Hcases as [[_ ->] | (p & rest & Hs & _ & ->)]; [reflexivity |].
  rewrite Hs, !TimeFormatMore.length_append. reflexivity.
Qed.

(** X2: normalising the [time] column is idempotent: a table whose times
    were already normalised is left unchanged by line 62. *)
Theorem assign_time_idempotent (Num : Type) (df : list (RawRow Num)) :
  assign_time (assign_time df) = assign_time df.
Proof.
  unfold assign_time. rewrite map_map. apply map_ext. intros r.
  unfold set_time. simpl. f_equal.
  destruct (time r) as [t |]; [simpl | reflexivity]. f_equal.
  destruct (TimeFormatMore.sub_colon_cases t)
    as [[_ Hsame] | (p & rest & _ & Hl & Hsub)].
  - rewrite Hsame. exact Hsame.
  - rewrite Hsub. apply TimeFormatMore.sub_colon_after_period, Hl.
Qed.

(** ** Lines 211-264: more on [create_time_slider_frames] *)

Lemma str_injective (a b : nat) : str a = str b -> a = b.
Proof.
  unfold str. intros H. apply Unsigned.to_uint_inj.
  pose proof (NilEmpty.usu (Nat.to_uint a)) as Ha.
  rewrite H, NilEmpty.usu in Ha. injection Ha as Ha. symmetry. exact Ha.
Qed.

Lemma Forall2_nth_error_right {A B : Type} (R : A -> B -> Prop)
    (l : list A) (l' : list B) :
  Forall2 R l l' ->
  forall i b, nth_error l' i = Some b ->
              exists a, nth_error l i = Some a /\ R a b.
Proof.
  induction 1 as [| a b0 l l' Hab _ IH]; intros i b Hb.
  - destruct i; discriminate Hb.
  - destruct i as [| i]; simpl in *.
    + injection Hb as <-. exists a. auto.
    + apply IH, Hb.
Qed.

Section FrameBuilderMore.

Context {Num Timestamp : Type}.
Variable strftime_HMS : Timestamp -> string.

Implicit Types (df : list (Row Num Timestamp)) (y_cols : list Column).
Implicit Types (ks : list nat).

Lemma slider_row_cases df (k : nat) :
  1 <= k <= List.length df -> labelled df k \/ unlabelled df k.
Proof.
  intros Hk. unfold labelled, unlabelled.
  destruct (nth_error (datetime_column df) (k - 1)) as [[t |] |] eqn:Hnth.
  - left. exists t. reflexivity.
  - right. reflexivity.
  - apply nth_error_None in Hnth. unfold datetime_column in Hnth.
    rewrite length_map in Hnth. lia.
Qed.

Lemma slider_rows_cases df ks :
  Forall (fun k => 1 <= k <= List.length df) ks ->
  Forall (labelled df) ks \/ Exists (unlabelled df) ks.
Proof.
  induction 1 as [| k ks Hk _ IH]; [left; constructor |].
  destruct (slider_row_cases df k Hk) as [Hl | Hu];
    [| right; constructor; exact Hu].
  destruct IH as [Hall | Hex];
    [left; constructor; assumption | right; apply Exists_cons_tl, Hex].
Qed.

Lemma labelled_not_unlabelled df (k : nat) :
  labelled df k -> ~ unlabelled df k.
Proof. intros [t Ht] Hu. unfold unlabelled in Hu. congruence. Qed.

Lemma bounds_of_rows df :
  Forall (fun k => 1 <= k <= List.length df) (bounds_of df).
Proof. apply Forall_forall. intros k. apply bounds_of_in. Qed.

Lemma slider_loop_steps df y_cols ks :
  forall frames steps frames' steps',
    slider_loop strftime_HMS df y_cols ks frames steps = Ok (frames', steps') ->
    exists added,
      steps' = steps ++ added /\ Forall2 (step_of strftime_HMS df) ks added.
Proof.
  induction ks as [| k ks IH]; intros frames steps frames' steps' Hrun.
  - simpl in Hrun. injection Hrun as _ <-.
    exists []. rewrite app_nil_r. split; [reflexivity | constructor].
  - simpl in Hrun. unfold slider_label in Hrun.
    destruct (nth_error (datetime_column df) (k - 1)) as [[t |] |] eqn:Hk;
      simpl in Hrun; try discriminate Hrun.
    apply IH in Hrun. destruct Hrun as (added & -> & Hadded).
    exists (mkStep (str k) (strftime_HMS t) :: added).
    rewrite <- app_assoc. split; [reflexivity |].
    constructor; [| exact Hadded].
    split; [reflexivity | exists t; auto].
Qed.

Lemma create_time_slider_frames_steps df y_cols y_label fig :
  create_time_slider_frames strftime_HMS df y_cols y_label = Ok fig ->
  Forall2 (step_of strftime_HMS df) (bounds_of df) (fig_steps fig).
Proof.
  unfold create_time_slider_frames. fold (step_size_of df).
  rewrite bounds_of_range.
  destruct (slider_loop strftime_HMS df y_cols (bounds_of df) [] [])
    as [[frames steps] | e] eqn:Hloop; simpl; [| discriminate].
  intros Hfig. injection Hfig as <-. simpl.
  apply slider_loop_steps in Hloop. destruct Hloop as (added & -> & Hadded).
  exact Hadded.
Qed.

(** X3: the 2D builder fails in one way only.  It returns a figure exactly
    when every row that labels a slider step (row [k - 1] for each multiple
    [k] of the step up to the row count) holds a timestamp; otherwise one of
    these rows is NaT and the exception is the [ValueError] of
    [NaT.strftime].  [iloc[k-1]] is never out of bounds. *)
Theorem create_time_slider_frames_fails_only_on_NaT df y_cols y_label :
  ((exists fig,
       create_time_slider_frames strftime_HMS df y_cols y_label = Ok fig) <->
   Forall (labelled df) (bounds_of df)) /\
  (forall e,
      create_time_slider_frames strftime_HMS df y_cols y_label = Raise e ->
      e = ValueError "NaTType does not support strftime" /\
      Exists (unlabelled df) (bounds_of df)).
Proof.
  split.
  - split.
    + intros [fig Hfig]. apply create_time_slider_frames_ok in Hfig. tauto.
    + apply create_time_slider_frames_total.
  - intros e He.
    destruct (slider_rows_cases df _ (bounds_of_rows df)) as [Hall | Hex].
    + destruct (create_time_slider_frames_total strftime_HMS df y_cols y_label Hall)
        as [fig Hfig]. congruence.
    + split; [| exact Hex].
      rewrite (create_time_slider_frames_NaT strftime_HMS df y_cols y_label Hex) in He.
      injection He as <-. reflexivity.
Qed.

(** X4: in a returned figure the slider has one step per frame, in the same
    order; step [i] animates to the frame of the same position and its
    label is the [%H:%M:%S] time of the last row that frame shows. *)
Theorem slider_steps_match_frames df y_cols y_label fig :
  create_time_slider_frames strftime_HMS df y_cols y_label = Ok fig ->
  map step_frame (fig_steps fig) = map frame_name (fig_frames fig) /\
  List.length (fig_steps fig) = List.length (fig_frames fig) /\
  (forall i st,
      nth_error (fig_steps fig) i = Some st ->
      let k := (i + 1) * Nat.max 1 (List.length df / 30) in
      exists t,
        nth_error (datetime_column df) (k - 1) = Some (Some t) /\
        step_label st = strftime_HMS t /\
        step_frame st = str k).
Proof.
  intros Hfig. pose proof (create_time_slider_frames_steps _ _ _ _ Hfig) as Hsteps.
  apply create_time_slider_frames_ok in Hfig.
  destruct Hfig as (Hf & _ & Hnames & _).
  assert (Hfn : map frame_name (fig_frames fig) = map str (bounds_of df)).
  { rewrite Hf, map_map. reflexivity. }
  split; [congruence |]. split.
  - rewrite <- (length_map step_frame), <- (length_map frame_name). congruence.
  - intros i st Hst.
    destruct (Forall2_nth_error_right _ _ _ Hsteps i st Hst) as (k & Hk & Hstep).
    apply bounds_of_nth in Hk. fold (step_size_of df). simpl. subst k.
    destruct Hstep as (Hname & t & Ht & Hlabel). exists t. auto.
Qed.

Lemma frame_count_le_59 (n : nat) : n / Nat.max 1 (n / 30) <= 59.
Proof.
  pose proof (Nat.div_mod_eq n 30) as Hn.
  pose proof (Nat.mod_upper_bound n 30) as Hr.
  destruct (n / 30) as [| q] eqn:Hq.
  - change (Nat.max 1 0) with 1. rewrite Nat.div_1_r. lia.
  - replace (Nat.max 1 (S q)) with (S q) by lia.
    assert (Hlt : n / S q < 60); [| lia].
    apply Nat.Div0.div_lt_upper_bound. lia.
Qed.

Lemma frame_count_ge_30 (n : nat) : 30 <= n -> 30 <= n / Nat.max 1 (n / 30).
Proof.
  intros Hn30.
  pose proof (Nat.div_mod_eq n 30) as Hn.
  destruct (n / 30) as [| q] eqn:Hq.
  - pose proof (Nat.mod_upper_bound n 30). lia.
  - replace (Nat.max 1 (S q)) with (S q) by lia.
    apply Nat.div_le_lower_bound; lia.
Qed.

Lemma frame_count_small (n : nat) : n < 60 -> n / Nat.max 1 (n / 30) = n.
Proof.
  intros Hn60.
  assert (Hq : n / 30 <= 1).
  { assert (n / 30 < 2); [| lia]. apply Nat.Div0.div_lt_upper_bound. lia. }
  replace (Nat.max 1 (n / 30)) with 1 by lia. apply Nat.div_1_r.
Qed.

Lemma fig_frames_length df y_cols y_label fig :
  create_time_slider_frames strftime_HMS df y_cols y_label = Ok fig ->
  List.length (fig_frames fig) = List.length df / Nat.max 1 (List.length df / 30).
Proof.
  intros Hfig. apply create_time_slider_frames_ok in Hfig.
  destruct Hfig as (-> & _). rewrite length_map. apply bounds_of_length.
Qed.

(** X5: how many frames a returned figure has.  Up to 59 rows there is one
    frame per row; from 30 rows on there are at least 30 frames; there are
    never more than 59 (the step [max(1, n // 30)] keeps the count between
    30 and 59 for large tables, not at 30). *)
Theorem frame_count_bounds df y_cols y_label fig :
  create_time_slider_frames strftime_HMS df y_cols y_label = Ok fig ->
  List.length (fig_frames fig) <= 59 /\
  (List.length df < 60 -> List.length (fig_frames fig) = List.length df) /\
  (30 <= List.length df -> 30 <= List.length (fig_frames fig)).
Proof.
  intros Hfig. rewrite (fig_frames_length _ _ _ _ Hfig).
  split; [apply frame_count_le_59 |].
  split; [apply frame_count_small | apply frame_count_ge_30].
Qed.

(** X6: the rows the animation ends on.  In a figure returned for a table
    of [n >= 1] rows and step [s], write [m = n - n mod s].  The last frame
    is named [str m] and each of its traces shows the first [m] rows of the
    [datetime] column against the first [m] rows of its column; every frame
    shows the first [k] rows for some [k <= m].  So the rows [m .. n-1],
    the final [n mod s] rows of the table, appear in no frame. *)
Theorem last_frame_rows df y_cols y_label fig :
  1 <= List.length df ->
  create_time_slider_frames strftime_HMS df y_cols y_label = Ok fig ->
  let n := List.length df in
  let s := Nat.max 1 (n / 30) in
  let m := n - n mod s in
  (exists f,
      nth_error (fig_frames fig) (List.length (fig_frames fig) - 1) = Some f /\
      frame_name f = str m /\
      frame_data f =
        map (fun col => Scatter (firstn m (datetime_column df))
                                (firstn m (column col df))
                                "lines" (col_name col)) y_cols) /\
  (forall i f,
      nth_error (fig_frames fig) i = Some f ->
      exists k,
        k <= m /\
        frame_data f =
          map (fun col => Scatter (firstn k (datetime_column df))
                                  (firstn k (column col df))
                                  "lines" (col_name col)) y_cols).
Proof.
  intros Hn Hfig. cbv zeta.
  change (Nat.max 1 (List.length df / 30)) with (step_size_of df).
  pose proof (fig_frames_length _ _ _ _ Hfig) as Hlen.
  change (Nat.max 1 (List.length df / 30)) with (step_size_of df) in Hlen.
  apply create_time_slider_frames_ok in Hfig. destruct Hfig as (Hf & _).
  pose proof (step_size_pos df) as Hs.
  pose proof (step_size_le df Hn) as Hsn.
  assert (Hmod : List.length df - List.length df mod step_size_of df =
                 List.length df / step_size_of df * step_size_of df).
  { pose proof (Nat.div_mod_eq (List.length df) (step_size_of df)). lia. }
  assert (Hq : 1 <= List.length df / step_size_of df).
  { apply Nat.div_le_lower_bound; lia. }
  rewrite Hmod. split.
  - destruct (nth_error (fig_frames fig) (List.length (fig_frames fig) - 1))
      as [f |] eqn:Hlast.
    + exists f. split; [reflexivity |].
      rewrite Hlen, Hf in Hlast. apply snapshots_nth in Hlast.
      replace (List.length df / step_size_of df - 1 + 1)
        with (List.length df / step_size_of df) in Hlast by lia.
      destruct Hlast as [-> Hle].
      split; reflexivity.
    + apply nth_error_None in Hlast. lia.
  - intros i f Hi. rewrite Hf in Hi.
    assert (Hlt : i < List.length df / step_size_of df).
    { rewrite <- bounds_of_length, <- (length_map (snapshot df y_cols)).
      apply nth_error_Some. congruence. }
    apply snapshots_nth in Hi. destruct Hi as [-> Hle].
    exists ((i + 1) * step_size_of df). split; [nia | reflexivity].
Qed.

(** X7: the frames of a returned figure have pairwise different names, so a
    slider step names one frame only. *)
Theorem frame_names_distinct df y_cols y_label fig :
  create_time_slider_frames strftime_HMS df y_cols y_label = Ok fig ->
  NoDup (map frame_name (fig_frames fig)).
Proof.
  intros Hfig. apply create_time_slider_frames_ok in Hfig.
  destruct Hfig as (-> & _). rewrite map_map. simpl.
  unfold bounds_of. rewrite map_map.
  apply NoDup_map_NoDup_ForallPairs; [| apply seq_NoDup].
  intros i j _ _ Hij. apply str_injective in Hij.
  pose proof (step_size_pos df). nia.
Qed.

End FrameBuilderMore.

(** ** Lines 79-204: more on the 3D trajectory figure *)

Lemma comprehension_ok {A B : Type} (f : A -> result B) (ks : list A) :
  forall bs, comprehension f ks = Ok bs -> Forall2 (fun k b => f k = Ok b) ks bs.
Proof.
  induction ks as [| k ks IH]; intros bs Hrun; simpl in Hrun.
  - injection Hrun as <-. constructor.
  - destruct (f k) as [b |] eqn:Hk; simpl in Hrun; [| discriminate Hrun].
    destruct (comprehension f ks) as [bs' |]; simpl in Hrun; [| discriminate Hrun].
    injection Hrun as <-. constructor; [exact Hk | apply IH; reflexivity].
Qed.

Lemma range_nth (start stop step i k : nat) :
  nth_error (range start stop step) i = Some k -> k = start + i * step.
Proof.
  unfold range. rewrite nth_error_map, nth_error_seq.
  destruct (i <? range_length start stop step); simpl; intros Hk;
    [injection Hk as <-; reflexivity | discriminate Hk].
Qed.

Lemma trajectory_range_length (n : nat) :
  10 <= n -> range_length 10 n 5 = (n - 6) / 5.
Proof.
  intros Hn. unfold range_length.
  destruct (Nat.ltb_spec 10 n) as [Hlt | Hge].
  - replace (n - 6) with (n - 10 - 1 + 1 * 5) by lia.
    rewrite Nat.div_add by lia. reflexivity.
  - replace n with 10 by lia. reflexivity.
Qed.

Section TrajectoryMore.

Context {Num Timestamp : Type}.
Variables series_min series_max : list Num -> Num.
Variable minus_10 : Num -> Num.

Implicit Types (df : list (Row Num Timestamp)).

Lemma getitem_ok (s : list Num) (label : nat) (v : Num) :
  getitem s label = Ok v -> nth_error s label = Some v.
Proof.
  unfold getitem. destruct (nth_error s label) as [w |]; intros H;
    [injection H as <-; reflexivity | discriminate H].
Qed.

Lemma trajectory_data_ok df (k last : nat) (data : list (Trace Num Timestamp)) :
  trajectory_data series_min series_max minus_10 df k last = Ok data ->
  exists x y z,
    nth_error (column col_lon df) last = Some x /\
    nth_error (column col_lat df) last = Some y /\
    nth_error (column col_gps_alt df) last = Some z /\
    data = [ ground_plane series_min series_max minus_10 df;
             Scatter3d (firstn k (column col_lon df))
                       (firstn k (column col_lat df))
                       (firstn k (column col_gps_alt df)) "lines" "Rocket Path";
             Scatter3d [x] [y] [z] "text+markers" "🚀 Rocket" ].
Proof.
  unfold trajectory_data. intros Hrun.
  destruct (getitem (column col_lon df) last) as [x |] eqn:Hx;
    simpl in Hrun; [| discriminate Hrun].
  destruct (getitem (column col_lat df) last) as [y |] eqn:Hy;
    simpl in Hrun; [| discriminate Hrun].
  destruct (getitem (column col_gps_alt df) last) as [z |] eqn:Hz;
    simpl in Hrun; [| discriminate Hrun].
  injection Hrun as <-. exists x, y, z.
  auto using getitem_ok.
Qed.

Lemma trajectory_figure_ok df fig :
  trajectory_figure series_min series_max minus_10 df = Ok fig ->
  Forall2 (fun k f => trajectory_frame series_min series_max minus_10 df k = Ok f)
          (range 10 (List.length df) 5) (fig_frames fig) /\
  fig_steps fig = map trajectory_step (range 10 (List.length df) 5) /\
  trajectory_data series_min series_max minus_10 df 10 9 = Ok (fig_data fig).
Proof.
  unfold trajectory_figure. intros Hrun.
  destruct (comprehension _ (range 10 (List.length df) 5)) as [frames |] eqn:Hfr;
    simpl in Hrun; [| discriminate Hrun].
  destruct (trajectory_data series_min series_max minus_10 df 10 9)
    as [data |] eqn:Hdata; simpl in Hrun; [| discriminate Hrun].
  injection Hrun as <-. simpl.
  auto using comprehension_ok.
Qed.

Lemma trajectory_frame_ok df (k : nat) (f : Frame Num Timestamp) :
  trajectory_frame series_min series_max minus_10 df k = Ok f ->
  frame_name f = str k /\
  trajectory_data series_min series_max minus_10 df k (k - 1) = Ok (frame_data f).
Proof.
  unfold trajectory_frame. intros Hrun.
  destruct (trajectory_data series_min series_max minus_10 df k (k - 1))
    as [data |]; simpl in Hrun; [| discriminate Hrun].
  injection Hrun as <-. auto.
Qed.

(** X8: the frames of a returned 3D figure.  The frame at position [i] is
    named [str k] for [k = 10 + 5 * i], with [k] below the row count, and
    holds the ground plane, the path over the first [k] rows and the rocket
    marker at row [k - 1]: the marker is the last point of the path, and
    the last row of the table is in no frame. *)
Theorem trajectory_frames_follow_the_path df fig :
  trajectory_figure series_min series_max minus_10 df = Ok fig ->
  forall i f,
    nth_error (fig_frames fig) i = Some f ->
    let k := 10 + i * 5 in
    k < List.length df /\
    frame_name f = str k /\
    exists x y z,
      frame_data f =
        [ ground_plane series_min series_max minus_10 df;
          Scatter3d (firstn k (column col_lon df))
                    (firstn k (column col_lat df))
                    (firstn k (column col_gps_alt df)) "lines" "Rocket Path";
          Scatter3d [x] [y] [z] "text+markers" "🚀 Rocket" ] /\
      List.length (firstn k (column col_lon df)) = k /\
      nth_error (firstn k (column col_lon df)) (k - 1) = Some x /\
      nth_error (firstn k (column col_lat df)) (k - 1) = Some y /\
      nth_error (firstn k (column col_gps_alt df)) (k - 1) = Some z.
Proof.
  intros Hfig i f Hf. apply trajectory_figure_ok in Hfig.
  destruct Hfig as (Hframes & _).
  destruct (Forall2_nth_error_right _ _ _ Hframes i f Hf) as (k & Hk & Hrun).
  pose proof (nth_error_In _ _ Hk) as Hin. apply in_range in Hin; [| lia].
  apply range_nth in Hk. cbv zeta. rewrite <- Hk.
  apply trajectory_frame_ok in Hrun. destruct Hrun as [Hname Hdata].
  apply trajectory_data_ok in Hdata.
  destruct Hdata as (x & y & z & Hx & Hy & Hz & Hd).
  split; [lia |]. split; [exact Hname |].
  exists x, y, z. split; [exact Hd |].
  rewrite length_firstn, column_length.
  rewrite !nth_error_firstn.
  destruct (Nat.ltb_spec (k - 1) k) as [_ | Hbad]; [| lia].
  repeat split; try assumption. lia.
Qed.

(** X9: the slider of a returned 3D figure has one step per frame, in
    order: step [i] animates to the frame of that position and is labelled
    [k * 50 ms] for [k = 10 + 5 * i].  For [n >= 10] rows there are
    [(n - 6) // 5] frames, with pairwise different names. *)
Theorem trajectory_steps_match_frames df fig :
  trajectory_figure series_min series_max minus_10 df = Ok fig ->
  map step_frame (fig_steps fig) = map frame_name (fig_frames fig) /\
  List.length (fig_frames fig) = (List.length df - 6) / 5 /\
  NoDup (map frame_name (fig_frames fig)) /\
  (forall i st,
      nth_error (fig_steps fig) i = Some st ->
      step_frame st = str (10 + i * 5) /\
      step_label st = (str ((10 + i * 5) * 50) ++ " ms")%string).
Proof.
  intros Hfig.
  assert (Hn : 10 <= List.length df).
  { destruct (Nat.le_gt_cases 10 (List.length df)) as [H | H]; [exact H |].
    rewrite (trajectory_figure_short series_min series_max minus_10 df H) in Hfig.
    discriminate Hfig. }
  apply trajectory_figure_ok in Hfig. destruct Hfig as (Hframes & Hsteps & _).
  assert (Hnames : map frame_name (fig_frames fig) =
                   map str (range 10 (List.length df) 5)).
  { clear Hsteps. induction Hframes as [| k f ks fs Hk _ IH]; [reflexivity |].
    simpl. apply trajectory_frame_ok in Hk. destruct Hk as [-> _].
    rewrite IH. reflexivity. }
  split; [rewrite Hsteps, Hnames, map_map; reflexivity |].
  split.
  { rewrite <- (length_map frame_name), Hnames, length_map.
    unfold range. rewrite length_map, length_seq.
    apply trajectory_range_length, Hn. }
  split.
  { rewrite Hnames. unfold range. rewrite map_map.
    apply NoDup_map_NoDup_ForallPairs; [| apply seq_NoDup].
    intros i j _ _ Hij. apply str_injective in Hij. lia. }
  intros i st Hst. rewrite Hsteps, nth_error_map in Hst.
  destruct (nth_error (range 10 (List.length df) 5) i) as [k |] eqn:Hk;
    simpl in Hst; [| discriminate Hst].
  injection Hst as <-. apply range_nth in Hk. subst k.
  split; reflexivity.
Qed.

(** X10: with more than ten rows the first frame of the 3D figure shows
    what the figure shows before the animation starts: the path over the
    first ten rows with the marker at row 9. *)
Theorem trajectory_initial_data_is_first_frame df fig :
  10 < List.length df ->
  trajectory_figure series_min series_max minus_10 df = Ok fig ->
  exists f rest,
    fig_frames fig = f :: rest /\
    frame_name f = "10" /\
    frame_data f = fig_data fig.
Proof.
  intros Hn Hfig. apply trajectory_figure_ok in Hfig.
  destruct Hfig as (Hframes & _ & Hdata).
  assert (Hr : exists ks, range 10 (List.length df) 5 = 10 :: ks).
  { unfold range, range_length.
    destruct (Nat.ltb_spec 10 (List.length df)) as [_ | Hbad]; [| lia].
    rewrite Nat.add_1_r. simpl. eexists. reflexivity. }
  destruct Hr as [ks Hr]. rewrite Hr in Hframes.
  inversion Hframes as [| k f ks' rest Hk _ Heq1 Heq2]; subst.
  exists f, rest. split; [reflexivity |].
  apply trajectory_frame_ok in Hk. destruct Hk as [Hname Hk].
  split; [exact Hname |].
  change (10 - 1) with 9 in Hk. congruence.
Qed.

End TrajectoryMore.

(** ** The run of the script, from the table that is loaded *)

Section RunMore.

Context {Num Timestamp Upload : Type}.
Variable read_csv : Source Upload -> list (RawRow Num).
Variable to_datetime : list (option string) -> list (option Timestamp).
Variable strftime_HMS : Timestamp -> string.
Variables series_min series_max : list Num -> Num.
Variable minus_10 : Num -> Num.

Implicit Types (df : list (RawRow Num)) (rows : list (Row Num Timestamp)).

Lemma sbind_show {A : Type} (w : Widget Num Timestamp)
    (k : unit -> Script Num Timestamp A) :
  sbind (show w) k = (w :: fst (k tt), snd (k tt)).
Proof. unfold sbind, show. destruct (k tt). reflexivity. Qed.

Lemma sbind_returns {A B : Type} (c : Script Num Timestamp A)
    (k : A -> Script Num Timestamp B) (shown : list (Widget Num Timestamp)) (a : A) :
  c = (shown, Returns a) -> sbind c k = (shown ++ fst (k a), snd (k a)).
Proof. intros ->. unfold sbind. destruct (k a). reflexivity. Qed.

(** What [show_parsing_issues] shows: nothing, or the warning and the table
    of the rows without a timestamp. *)
Lemma show_parsing_issues_run rows :
  show_parsing_issues rows =
  (if existsb isnull rows
   then [ Warning "Some datetime values could not be parsed.";
          Dataframe (filter isnull rows) ]
   else [], Returns tt).
Proof. unfold show_parsing_issues. destruct (existsb isnull rows); reflexivity. Qed.

(** The run on a table for which lines 62 and 65 do not raise: the header,
    the parsing issues, then whatever the charts get to show. *)
Lemma main_processed (uploaded_file : option Upload)
    (selected_dataset : Dataset) rows :
  process_time to_datetime (fst (load read_csv uploaded_file selected_dataset))
  = Ok rows ->
  main read_csv to_datetime strftime_HMS series_min series_max minus_10
       uploaded_file selected_dataset =
  (header_widgets (snd (load read_csv uploaded_file selected_dataset))
                  (List.length (fst (load read_csv uploaded_file selected_dataset)))
   ++ issue_widgets rows
   ++ fst (render strftime_HMS series_min series_max minus_10 rows),
   snd (render strftime_HMS series_min series_max minus_10 rows)).
Proof.
  unfold main.
  destruct (load read_csv uploaded_file selected_dataset) as [df name].
  cbn [fst snd]. intros Hrows.
  assert (Hne : df <> []).
  { apply process_time_ok in Hrows. destruct Hrows as (_ & Htime & _).
    destruct df; [discriminate Htime | discriminate]. }
  unfold sidebar. rewrite !sbind_show. cbn [fst snd].
  rewrite (page_nonempty to_datetime strftime_HMS series_min series_max
             minus_10 df name Hne).
  rewrite !sbind_show. cbn [fst snd]. rewrite Hrows.
  rewrite (sbind_returns (eval (Ok rows)) _ [] rows eq_refl). cbv beta.
  rewrite (sbind_returns _ _ _ tt (show_parsing_issues_run rows)).
  reflexivity.
Qed.

(** The run on a table with a row for which line 62 or line 65 raises: the
    header, then the exception. *)
Lemma main_raises (uploaded_file : option Upload)
    (selected_dataset : Dataset) (e : Exn) :
  fst (load read_csv uploaded_file selected_dataset) <> [] ->
  process_time to_datetime (fst (load read_csv uploaded_file selected_dataset))
  = Raise e ->
  main read_csv to_datetime strftime_HMS series_min series_max minus_10
       uploaded_file selected_dataset =
  (header_widgets (snd (load read_csv uploaded_file selected_dataset))
                  (List.length (fst (load read_csv uploaded_file selected_dataset))),
   Crashed e).
Proof.
  unfold main.
  destruct (load read_csv uploaded_file selected_dataset) as [df name].
  cbn [fst snd]. intros Hne Hraise.
  unfold sidebar. rewrite !sbind_show. cbn [fst snd].
  rewrite (page_nonempty to_datetime strftime_HMS series_min series_max
             minus_10 df name Hne).
  rewrite !sbind_show. cbn [fst snd]. rewrite Hraise. reflexivity.
Qed.

Lemma main_empty (uploaded_file : option Upload) (selected_dataset : Dataset) :
  fst (load read_csv uploaded_file selected_dataset) = [] ->
  snd (main read_csv to_datetime strftime_HMS series_min series_max minus_10
            uploaded_file selected_dataset) = Stopped.
Proof.
  unfold main.
  destruct (load read_csv uploaded_file selected_dataset) as [df name].
  simpl. intros ->. reflexivity.
Qed.

Lemma issue_widgets_no_chart rows :
  filter shows_chart (issue_widgets rows) = [].
Proof. unfold issue_widgets. destruct (existsb isnull rows); reflexivity. Qed.

Lemma charts_shown_main (uploaded_file : option Upload)
    (selected_dataset : Dataset) rows :
  process_time to_datetime (fst (load read_csv uploaded_file selected_dataset))
  = Ok rows ->
  charts_shown (main read_csv to_datetime strftime_HMS series_min series_max
                     minus_10 uploaded_file selected_dataset) =
  charts_shown (render strftime_HMS series_min series_max minus_10 rows).
Proof.
  intros Hrows. rewrite (main_processed _ _ _ Hrows).
  unfold charts_shown. cbn [fst].
  rewrite !filter_app, issue_widgets_no_chart. reflexivity.
Qed.

Lemma nonempty_of_length df : 1 <= List.length df -> df <> [].
Proof. destruct df; simpl; [lia | discriminate]. Qed.

(** A row with a timestamp has a date and a time, so both columns hold
    text. *)
Lemma labelled_row_has_text df (i : nat) (t : Timestamp) :
  nth_error (datetime_column (prepare to_datetime df)) i = Some (Some t) ->
  has_text (map time df) = true /\ has_text (map date df) = true.
Proof.
  intros Ht.
  destruct (nth_error df i) as [r |] eqn:Hr.
  - rewrite (prepare_nth to_datetime df i r Hr) in Ht.
    pose proof (nth_error_In _ _ Hr) as Hin.
    destruct (date r) as [d |] eqn:Hd; [| discriminate Ht].
    destruct (time r) as [tm |] eqn:Htm; [| discriminate Ht].
    unfold has_text. split; apply existsb_exists.
    + exists (Some tm). split; [| reflexivity].
      rewrite <- Htm. apply in_map, Hin.
    + exists (Some d). split; [| reflexivity].
      rewrite <- Hd. apply in_map, Hin.
  - apply nth_error_None in Hr.
    assert (Hlt : i < List.length (datetime_column (prepare to_datetime df)))
      by (apply nth_error_Some; congruence).
    unfold datetime_column in Hlt.
    rewrite length_map, (prepare_length to_datetime) in Hlt. lia.
Qed.


(** X11: a table of one to nine rows.  The run shows the header and ends
    with an exception before any chart: [AttributeError] from line 62 when
    the [time] column holds no text, else [TypeError] from line 65 when the
    [date] column holds no text, else [KeyError: 9] from the 3D figure. *)
Theorem short_table_shows_no_chart (uploaded_file : option Upload)
    (selected_dataset : Dataset) :
  let df := fst (load read_csv uploaded_file selected_dataset) in
  1 <= List.length df < 10 ->
  snd (main read_csv to_datetime strftime_HMS series_min series_max minus_10
            uploaded_file selected_dataset) =
    Crashed (if has_text (map time df)
             then if has_text (map date df) then KeyError 9 else TypeError
             else AttributeError) /\
  charts_shown (main read_csv to_datetime strftime_HMS series_min series_max
                     minus_10 uploaded_file selected_dataset) = 0.
Proof.
  intros df [Hlo Hhi]. pose proof (nonempty_of_length _ Hlo) as Hne.
  pose proof (process_time_cases to_datetime df) as Hcases. fold df in Hne.
  destruct (has_text (map time df)).
  - destruct (has_text (map date df)).
    + rewrite (charts_shown_main _ _ _ Hcases), (main_processed _ _ _ Hcases).
      rewrite render_short by (rewrite prepare_length; exact Hhi).
      split; reflexivity.
    + rewrite (main_raises _ _ _ Hne Hcases). split; reflexivity.
  - rewrite (main_raises _ _ _ Hne Hcases). split; reflexivity.
Qed.

(** X12: a table of ten rows or more for which lines 62 and 65 do not
    raise and in which a row that labels a slider step has no timestamp.
    The run shows the 3D chart and ends with the [ValueError] of
    [NaT.strftime] in the first 2D chart: one chart of nine is shown. *)
Theorem unlabelled_slider_row_shows_one_chart (uploaded_file : option Upload)
    (selected_dataset : Dataset) rows :
  process_time to_datetime (fst (load read_csv uploaded_file selected_dataset))
  = Ok rows ->
  10 <= List.length rows ->
  Exists (unlabelled rows) (bounds_of rows) ->
  snd (main read_csv to_datetime strftime_HMS series_min series_max minus_10
            uploaded_file selected_dataset) =
    Crashed (ValueError "NaTType does not support strftime") /\
  charts_shown (main read_csv to_datetime strftime_HMS series_min series_max
                     minus_10 uploaded_file selected_dataset) = 1.
Proof.
  intros Hrows Hn Hex.
  rewrite (charts_shown_main _ _ _ Hrows), (main_processed _ _ _ Hrows).
  destruct (render_unlabelled strftime_HMS series_min series_max minus_10
              rows Hn Hex) as [fig ->].
  split; reflexivity.
Qed.

(** X13: the run reaches the last line of the script exactly when the table
    has ten rows or more and every row that labels a slider step has a
    timestamp; all nine charts are shown then.  Rows without a timestamp
    elsewhere in the table do not stop it. *)
Theorem run_completes_iff (uploaded_file : option Upload)
    (selected_dataset : Dataset) :
  let rows := prepare to_datetime
                (fst (load read_csv uploaded_file selected_dataset)) in
  (snd (main read_csv to_datetime strftime_HMS series_min series_max minus_10
             uploaded_file selected_dataset) = Returns tt <->
   10 <= List.length rows /\ Forall (labelled rows) (bounds_of rows)) /\
  (snd (main read_csv to_datetime strftime_HMS series_min series_max minus_10
             uploaded_file selected_dataset) = Returns tt ->
   charts_shown (main read_csv to_datetime strftime_HMS series_min series_max
                      minus_10 uploaded_file selected_dataset) = 9).
Proof.
  intros rows.
  assert (Hdone : 10 <= List.length rows /\ Forall (labelled rows) (bounds_of rows) ->
                  snd (main read_csv to_datetime strftime_HMS series_min
                            series_max minus_10 uploaded_file selected_dataset)
                  = Returns tt /\
                  charts_shown (main read_csv to_datetime strftime_HMS series_min
                                     series_max minus_10 uploaded_file
                                     selected_dataset) = 9).
  { intros [Hn Hl].
    assert (Hrows : process_time to_datetime
                      (fst (load read_csv uploaded_file selected_dataset))
                    = Ok rows).
    { destruct (bounds_of_head rows) as [rest Hb]; [lia |].
      rewrite Hb in Hl. inversion Hl as [| k ks [t Ht] _]; subst.
      destruct (labelled_row_has_text _ _ _ Ht) as [Htime Hdate].
      rewrite process_time_cases, Htime, Hdate. reflexivity. }
    rewrite (charts_shown_main _ _ _ Hrows), (main_processed _ _ _ Hrows).
    destruct (render_completes strftime_HMS series_min series_max minus_10
                rows Hn Hl) as (shown & -> & Hnine).
    split; [reflexivity | exact Hnine]. }
  assert (Hback : snd (main read_csv to_datetime strftime_HMS series_min
                            series_max minus_10 uploaded_file selected_dataset)
                  = Returns tt ->
                  10 <= List.length rows /\ Forall (labelled rows) (bounds_of rows)).
  { intros Hret.
    destruct (fst (load read_csv uploaded_file selected_dataset)) as [| r df]
      eqn:Hload.
    { rewrite (main_empty _ _ Hload) in Hret. discriminate Hret. }
    assert (Hne : fst (load read_csv uploaded_file selected_dataset) <> [])
      by (rewrite Hload; discriminate).
    destruct (process_time to_datetime
                (fst (load read_csv uploaded_file selected_dataset)))
      as [rows' | e] eqn:Hrows.
    2: { rewrite (main_raises _ _ _ Hne Hrows) in Hret. discriminate Hret. }
    rewrite (main_processed _ _ _ Hrows) in Hret. cbn [snd] in Hret.
    apply process_time_ok in Hrows. destruct Hrows as (-> & _).
    rewrite Hload in Hret. fold rows in Hret.
    destruct (Nat.le_gt_cases 10 (List.length rows)) as [Hn | Hn].
    - split; [exact Hn |].
      destruct (slider_rows_cases rows _ (bounds_of_rows rows)) as [Hl | Hex];
        [exact Hl |].
      destruct (render_unlabelled strftime_HMS series_min series_max minus_10
                  rows Hn Hex) as [fig Hrun].
      rewrite Hrun in Hret. discriminate Hret.
    - rewrite render_short in Hret by exact Hn. discriminate Hret. }
  split; [split; [exact Hback | apply Hdone] |].
  intros Hret. apply Hdone, Hback, Hret.
Qed.

(** X14: where the parsing issues are shown.  The first seven widgets of a
    run on a table with a row are the header.  When line 62 or line 65
    raises, nothing more is shown.  Otherwise, if some row has no timestamp
    the warning and the table of exactly those rows come next, before any
    chart and whatever happens in the charts; if every row has one, the
    charts follow the header directly. *)
Theorem parsing_issues_follow_the_header (uploaded_file : option Upload)
    (selected_dataset : Dataset) :
  let df := fst (load read_csv uploaded_file selected_dataset) in
  let shown := fst (main read_csv to_datetime strftime_HMS series_min
                         series_max minus_10 uploaded_file selected_dataset) in
  df <> [] ->
  firstn 7 shown =
    header_widgets (snd (load read_csv uploaded_file selected_dataset))
                   (List.length df) /\
  (forall e, process_time to_datetime df = Raise e -> skipn 7 shown = []) /\
  (forall rows,
      process_time to_datetime df = Ok rows ->
      (existsb isnull rows = true ->
       nth_error shown 7 =
         Some (Warning "Some datetime values could not be parsed.") /\
       nth_error shown 8 = Some (Dataframe (filter isnull rows)) /\
       skipn 9 shown =
         fst (render strftime_HMS series_min series_max minus_10 rows)) /\
      (existsb isnull rows = false ->
       skipn 7 shown =
         fst (render strftime_HMS series_min series_max minus_10 rows)) /\
      (forall r, In r (filter isnull rows) <-> In r rows /\ datetime r = None)).
Proof.
  intros df shown Hne. unfold shown.
  destruct (process_time to_datetime df) as [rows | e] eqn:Hrows.
  - rewrite (main_processed _ _ _ Hrows). cbn [fst]. fold df.
    split; [reflexivity |]. split; [discriminate |].
    intros rows' Heq. injection Heq as <-. unfold issue_widgets.
    split; [| split].
    + intros ->. repeat split.
    + intros ->. reflexivity.
    + intros r. rewrite filter_In. unfold isnull.
      destruct (datetime r); split; intros [Hin H]; split;
        try assumption; try reflexivity; discriminate H.
  - rewrite (main_raises _ _ _ Hne Hrows). cbn [fst]. fold df.
    split; [reflexivity |]. split; [reflexivity | discriminate].
Qed.

End RunMore.

Section MissingCells.

Context {Num Timestamp : Type}.
Variable to_datetime : list (option string) -> list (option Timestamp).

(** X15: when lines 62 and 65 do not raise, a row with a missing [date] or
    [time] cell gets NaT whatever the parser accepts, so it is one of the
    rows listed under the warning. *)
Theorem missing_cell_is_reported (df : list (RawRow Num)) (r : RawRow Num)
    (rows : list (Row Num Timestamp)) :
  process_time to_datetime df = Ok rows ->
  In r df ->
  date r = None \/ time r = None ->
  existsb isnull rows = true /\
  In (mkRow (set_time r (option_map TimeFormat.sub_colon (time r))) None)
     (filter isnull rows).
Proof.
  intros Hrows Hin Hmiss.
  apply process_time_ok in Hrows. destruct Hrows as (-> & _).
  assert (Hrow : In (mkRow (set_time r (option_map TimeFormat.sub_colon (time r)))
                           (@None Timestamp))
                    (prepare to_datetime df)).
  { apply In_nth_error in Hin. destruct Hin as [i Hi].
    assert (Hi' : nth_error (assign_time df) i =
                  Some (set_time r (option_map TimeFormat.sub_colon (time r)))).
    { unfold assign_time. rewrite nth_error_map, Hi. reflexivity. }
    apply (nth_error_In _ i). unfold prepare, assign_datetime.
    rewrite (assign_parsed_nth _ _ _ _ Hi'). do 2 f_equal.
    unfold date_time_text. simpl.
    destruct Hmiss as [-> | ->]; [reflexivity |].
    destruct (date r); reflexivity. }
  split.
  - apply existsb_exists. eexists. split; [exact Hrow | reflexivity].
  - apply filter_In. split; [exact Hrow | reflexivity].
Qed.

End MissingCells.

(** ** The further properties on sample tables *)

Lemma create_time_slider_frames_fails_only_on_NaT_witness :
  let rows := prepare Sample.to_datetime (Sample.damaged 10) in
  Exists (unlabelled rows) (bounds_of rows).
Proof.
  cbv zeta.
  apply (proj2 (create_time_slider_frames_fails_only_on_NaT Sample.strftime_HMS
                  (prepare Sample.to_datetime (Sample.damaged 10))
                  [col_alt] "Altitude")
               (ValueError "NaTType does not support strftime")).
  reflexivity.
Defined.

Lemma slider_steps_match_frames_witness :
  exists fig,
    create_time_slider_frames Sample.strftime_HMS
      (prepare Sample.to_datetime (Sample.table 65)) [col_alt] "Altitude" = Ok fig /\
    map step_frame (fig_steps fig) = map frame_name (fig_frames fig) /\
    List.length (fig_steps fig) = 32.
Proof.
  destruct (create_time_slider_frames Sample.strftime_HMS
              (prepare Sample.to_datetime (Sample.table 65))
              [col_alt] "Altitude") as [fig | e] eqn:Hfig;
    [| vm_compute in Hfig; discriminate Hfig].
  exists fig. split; [reflexivity |].
  destruct (slider_steps_match_frames Sample.strftime_HMS _ _ _ fig Hfig)
    as (Hnames & Hlen & _).
  split; [exact Hnames |].
  vm_compute in Hfig. injection Hfig as <-. reflexivity.
Defined.

Lemma frame_count_bounds_witness :
  exists fig,
    create_time_slider_frames Sample.strftime_HMS
      (prepare Sample.to_datetime (Sample.table 59)) [col_alt] "Altitude" = Ok fig /\
    List.length (fig_frames fig) = 59.
Proof.
  destruct (create_time_slider_frames Sample.strftime_HMS
              (prepare Sample.to_datetime (Sample.table 59))
              [col_alt] "Altitude") as [fig | e] eqn:Hfig;
    [| vm_compute in Hfig; discriminate Hfig].
  exists fig. split; [reflexivity |].
  destruct (frame_count_bounds Sample.strftime_HMS _ _ _ fig Hfig)
    as (_ & Hsmall & _).
  rewrite Hsmall; [reflexivity | vm_compute; lia].
Defined.

Lemma last_frame_rows_witness :
  exists fig f,
    create_time_slider_frames Sample.strftime_HMS
      (prepare Sample.to_datetime (Sample.table 65)) [col_alt] "Altitude" = Ok fig /\
    nth_error (fig_frames fig) (List.length (fig_frames fig) - 1) = Some f /\
    frame_name f = "64" /\
    frame_data f =
      [Scatter (firstn 64 (datetime_column
                             (prepare Sample.to_datetime (Sample.table 65))))
               (firstn 64 (column col_alt
                             (prepare Sample.to_datetime (Sample.table 65))))
               "lines" "alt"].
Proof.
  destruct (create_time_slider_frames Sample.strftime_HMS
              (prepare Sample.to_datetime (Sample.table 65))
              [col_alt] "Altitude") as [fig | e] eqn:Hfig;
    [| vm_compute in Hfig; discriminate Hfig].
  assert (Hn : 1 <= List.length (prepare Sample.to_datetime (Sample.table 65)))
    by (vm_compute; lia).
  destruct (last_frame_rows Sample.strftime_HMS _ _ _ fig Hn Hfig)
    as ((f & Hlast & Hname & Hdata) & _).
  exists fig, f. split; [reflexivity |]. split; [exact Hlast |].
  split; [exact Hname | exact Hdata].
Defined.

Lemma frame_names_distinct_witness :
  exists fig,
    create_time_slider_frames Sample.strftime_HMS
      (prepare Sample.to_datetime (Sample.table 65)) [col_alt] "Altitude" = Ok fig /\
    NoDup (map frame_name (fig_frames fig)).
Proof.
  destruct (create_time_slider_frames Sample.strftime_HMS
              (prepare Sample.to_datetime (Sample.table 65))
              [col_alt] "Altitude") as [fig | e] eqn:Hfig;
    [| vm_compute in Hfig; discriminate Hfig].
  exists fig. split; [reflexivity |].
  exact (frame_names_distinct Sample.strftime_HMS _ _ _ fig Hfig).
Defined.

Lemma trajectory_frames_follow_the_path_witness :
  exists fig f,
    trajectory_figure Sample.series_min Sample.series_max Sample.minus_10
      (prepare Sample.to_datetime (Sample.table 21)) = Ok fig /\
    nth_error (fig_frames fig) 2 = Some f /\
    frame_name f = "20".
Proof.
  destruct (trajectory_figure Sample.series_min Sample.series_max Sample.minus_10
              (prepare Sample.to_datetime (Sample.table 21))) as [fig | e] eqn:Hfig;
    [| vm_compute in Hfig; discriminate Hfig].
  destruct (nth_error (fig_frames fig) 2) as [f |] eqn:Hf;
    [| vm_compute in Hfig; injection Hfig as <-; discriminate Hf].
  exists fig, f. split; [reflexivity |]. split; [exact Hf |].
  exact (proj1 (proj2 (trajectory_frames_follow_the_path
                         Sample.series_min Sample.series_max Sample.minus_10
                         _ fig Hfig 2 f Hf))).
Defined.

Lemma trajectory_steps_match_frames_witness :
  exists fig,
    trajectory_figure Sample.series_min Sample.series_max Sample.minus_10
      (prepare Sample.to_datetime (Sample.table 21)) = Ok fig /\
    map step_frame (fig_steps fig) = map frame_name (fig_frames fig) /\
    List.length (fig_frames fig) = 3.
Proof.
  destruct (trajectory_figure Sample.series_min Sample.series_max Sample.minus_10
              (prepare Sample.to_datetime (Sample.table 21))) as [fig | e] eqn:Hfig;
    [| vm_compute in Hfig; discriminate Hfig].
  exists fig. split; [reflexivity |].
  destruct (trajectory_steps_match_frames Sample.series_min Sample.series_max
              Sample.minus_10 _ fig Hfig) as (Hnames & Hlen & _).
  split; [exact Hnames | exact Hlen].
Defined.

Lemma trajectory_initial_data_is_first_frame_witness :
  exists fig f rest,
    trajectory_figure Sample.series_min Sample.series_max Sample.minus_10
      (prepare Sample.to_datetime (Sample.table 21)) = Ok fig /\
    fig_frames fig = f :: rest /\
    frame_data f = fig_data fig.
Proof.
  destruct (trajectory_figure Sample.series_min Sample.series_max Sample.minus_10
              (prepare Sample.to_datetime (Sample.table 21))) as [fig | e] eqn:Hfig;
    [| vm_compute in Hfig; discriminate Hfig].
  assert (Hn : 10 < List.length (prepare Sample.to_datetime (Sample.table 21)))
    by (vm_compute; lia).
  destruct (trajectory_initial_data_is_first_frame Sample.series_min
              Sample.series_max Sample.minus_10 _ fig Hn Hfig)
    as (f & rest & Hframes & _ & Hdata).
  exists fig, f, rest. auto.
Defined.

Lemma short_table_shows_no_chart_witness :
  snd (Sample.run (Some (Sample.table 9)) SensorData) = Crashed (KeyError 9) /\
  charts_shown (Sample.run (Some (Sample.table 9)) SensorData) = 0.
Proof.
  pose proof (short_table_shows_no_chart Sample.read_csv Sample.to_datetime
                Sample.strftime_HMS Sample.series_min Sample.series_max
                Sample.minus_10 (Some (Sample.table 9)) SensorData) as H.
  cbv zeta in H. apply H. vm_compute. lia.
Defined.

Lemma unlabelled_slider_row_shows_one_chart_witness :
  snd (Sample.run (Some (Sample.damaged 12)) SensorData) =
    Crashed (ValueError "NaTType does not support strftime") /\
  charts_shown (Sample.run (Some (Sample.damaged 12)) SensorData) = 1.
Proof.
  apply (unlabelled_slider_row_shows_one_chart Sample.read_csv Sample.to_datetime
           Sample.strftime_HMS Sample.series_min Sample.series_max
           Sample.minus_10 (Some (Sample.damaged 12)) SensorData
           (prepare Sample.to_datetime (Sample.damaged 12))).
  - reflexivity.
  - vm_compute. lia.
  - apply Exists_cons_hd. reflexivity.
Defined.

(** Sixty rows, the time of row 0 unreadable: the step is 2, the slider
    rows are 1, 3, 5, ..., and the run completes. *)
Lemma run_completes_iff_witness :
  charts_shown (Sample.run (Some (Sample.damaged 60)) IdealLaunch) = 9 /\
  existsb isnull (prepare Sample.to_datetime (Sample.damaged 60)) = true.
Proof.
  split; [| reflexivity].
  apply (proj2 (run_completes_iff Sample.read_csv Sample.to_datetime
                  Sample.strftime_HMS Sample.series_min Sample.series_max
                  Sample.minus_10 (Some (Sample.damaged 60)) IdealLaunch)).
  vm_compute. reflexivity.
Defined.

Lemma parsing_issues_follow_the_header_witness :
  nth_error (fst (Sample.run (Some (Sample.damaged 12)) IdealLaunch)) 7 =
  Some (Warning "Some datetime values could not be parsed.").
Proof.
  pose proof (parsing_issues_follow_the_header Sample.read_csv Sample.to_datetime
                Sample.strftime_HMS Sample.series_min Sample.series_max
                Sample.minus_10 (Some (Sample.damaged 12)) IdealLaunch) as H.
  cbv zeta in H.
  assert (Hne : fst (load Sample.read_csv (Some (Sample.damaged 12)) IdealLaunch)
                <> []) by (vm_compute; discriminate).
  destruct (H Hne) as (_ & _ & Hok).
  assert (Hrows : process_time Sample.to_datetime
                    (fst (load Sample.read_csv (Some (Sample.damaged 12))
                               IdealLaunch))
                  = Ok (prepare Sample.to_datetime (Sample.damaged 12)))
    by reflexivity.
  destruct (Hok _ Hrows) as (Hissues & _).
  assert (Hnull : existsb isnull (prepare Sample.to_datetime (Sample.damaged 12))
                  = true) by (vm_compute; reflexivity).
  exact (proj1 (Hissues Hnull)).
Defined.

(** A row without a time among rows with one. *)
Lemma missing_cell_is_reported_witness :
  existsb isnull
    (prepare Sample.to_datetime
       [set_time (Sample.row 0) None; Sample.row 1]) = true.
Proof.
  apply (missing_cell_is_reported Sample.to_datetime
           [set_time (Sample.row 0) None; Sample.row 1]
           (set_time (Sample.row 0) None)
           (prepare Sample.to_datetime
              [set_time (Sample.row 0) None; Sample.row 1])).
  - reflexivity.
  - left. reflexivity.
  - right. reflexivity.
Defined.

